(** * Trial / billing reconciliation of the Usermanagement database scripts

    A shallow embedding of the PL/pgSQL functions of
    [kjhj/FINAL_COMPLETE_DATABASE_SETUP.sql] (module [Final]) and of
    [kjhj/COMPLETE_DATABASE_SETUP.sql] together with the enterprise
    enhancement script that repeats its second half (module [Complete]),
    and of the flags that the React hooks [useTrialStatus] and
    [useUserAccess] and the component [TrialStatus] compute from the rows
    of the views (module [Hooks]).

    Tables are lists of rows (bags, in physical order); an [UPDATE] is a
    [map] over the table, a [SELECT] a join followed by a [filter].
    Nullable columns are [option]s and SQL's three-valued conditions are
    [option bool]s that a [WHERE], a [CASE WHEN] or an [IF] accepts only
    when they are [Some true].  [now()] is the transaction timestamp: it is
    one argument [now] of every function, constant during a call.

    A function that can raise returns an [outcome].  A statement is
    analysed before it runs: an [UPDATE] that assigns to a column an
    expression of a type the column does not accept raises
    [datatype_mismatch], whatever the rows are.  The errors of the
    expressions a statement evaluates are modelled as well (a failing
    cast, a null assigned to a [NOT NULL] column, a scalar subquery with
    several rows).  A call that raises is rolled back.  The
    [UNIQUE] and foreign-key constraints of the schema are invariants of
    the stored tables that the functions are given, not checks they make;
    where a property depends on one, it is a hypothesis.  The sign-up
    functions are the exception: they insert rows, and their [INSERT]s are
    checked against the keys of the tables they write. *)

From Stdlib Require Import ZArith NArith List String Bool Lia.
Import ListNotations.

Local Open Scope string_scope.
Local Open Scope Z_scope.

(** ** SQL values *)

(** A [uuid] is its 128-bit value. *)
Definition uuid := N.

(** A [timestamptz] counts microseconds from the epoch. *)
Definition timestamptz := Z.

Definition text := string.

(** 'b8782453-a343-4301-a947-67c5bb407d2b'::uuid *)
Definition super_admin_id : uuid := 0xb8782453a3434301a94767c5bb407d2b%N.

(** [interval '1 day'], added to a timestamp in a session whose time zone
    has no daylight saving (the UTC default of the hosting platform). *)
Definition interval_1_day : Z := 86400000000.

(** Three-valued logic. *)
Definition sql_bool := option bool.

Definition is_true (b : sql_bool) : bool :=
  match b with Some true => true | _ => false end.

Definition sql_or (a b : sql_bool) : sql_bool :=
  match a, b with
  | Some true, _ | _, Some true => Some true
  | Some false, Some false => Some false
  | _, _ => None
  end.

Definition sql_and (a b : sql_bool) : sql_bool :=
  match a, b with
  | Some false, _ | _, Some false => Some false
  | Some true, Some true => Some true
  | _, _ => None
  end.

(** [x IS NULL] *)
Definition is_null {A} (x : option A) : bool :=
  match x with None => true | Some _ => false end.

(** [a > b] on nullable timestamps or integers *)
Definition sql_gt (a b : option Z) : sql_bool :=
  match a, b with Some x, Some y => Some (y <? x) | _, _ => None end.

(** ** Enumerated types *)

Inductive trial_status :=
| T_active
| T_expired
| T_converted_to_paid
| T_scheduled_for_deletion.

(** The nine labels of the earlier script; the final script declares the
    seven without [S_not_started] and [S_paused], which then never occur
    in a row. *)
Inductive stripe_subscription_status :=
| S_not_started
| S_incomplete
| S_incomplete_expired
| S_trialing
| S_active
| S_past_due
| S_canceled
| S_unpaid
| S_paused.

Definition trial_status_eqb (a b : trial_status) : bool :=
  match a, b with
  | T_active, T_active | T_expired, T_expired
  | T_converted_to_paid, T_converted_to_paid
  | T_scheduled_for_deletion, T_scheduled_for_deletion => true
  | _, _ => false
  end.

Definition stripe_status_eqb (a b : stripe_subscription_status) : bool :=
  match a, b with
  | S_not_started, S_not_started | S_incomplete, S_incomplete
  | S_incomplete_expired, S_incomplete_expired | S_trialing, S_trialing
  | S_active, S_active | S_past_due, S_past_due | S_canceled, S_canceled
  | S_unpaid, S_unpaid | S_paused, S_paused => true
  | _, _ => false
  end.

(** [status IN ('active', 'trialing')] on a status that is not null *)
Definition in_active_trialing (s : stripe_subscription_status) : bool :=
  match s with S_active | S_trialing => true | _ => false end.

(** the same test on the nullable column of an outer join *)
Definition sql_in_active_trialing (s : option stripe_subscription_status) : sql_bool :=
  option_map in_active_trialing s.

(** [status::text] *)
Definition status_text (s : stripe_subscription_status) : text :=
  match s with
  | S_not_started => "not_started"
  | S_incomplete => "incomplete"
  | S_incomplete_expired => "incomplete_expired"
  | S_trialing => "trialing"
  | S_active => "active"
  | S_past_due => "past_due"
  | S_canceled => "canceled"
  | S_unpaid => "unpaid"
  | S_paused => "paused"
  end%string.

(** ** Rows of the tables both scripts share *)

(** [user_trials].  [trial_end_date] and [trial_status] are [NOT NULL] in the
    earlier script and defaulted in the final one; every writer of the
    scripts fills them, so rows carry them. *)
Record user_trial := {
  ut_user_id : uuid;
  trial_start_date : timestamptz;
  trial_end_date : timestamptz;
  ut_trial_status : trial_status;
  deletion_scheduled_at : option timestamptz;
  ut_updated_at : timestamptz
}.

Record stripe_customer := {
  sc_user_id : uuid;
  sc_customer_id : text;
  sc_deleted_at : option timestamptz
}.

Record stripe_subscription := {
  ss_customer_id : text;
  ss_subscription_id : option text;
  ss_status : stripe_subscription_status;
  ss_current_period_end : option Z;
  ss_created_at : option timestamptz;
  ss_deleted_at : option timestamptz
}.

(** [auth.users], the platform's table.  The sign-up trigger copies [email]
    into a [NOT NULL] column, so registered users have one. *)
Record auth_user := {
  au_id : uuid;
  au_email : text
}.

(** ** Relational operators *)

(** [a JOIN b ON on] *)
Definition join {A B} (on : A -> B -> bool) (l : list A) (r : list B) : list (A * B) :=
  flat_map (fun a => map (pair a) (filter (on a) r)) l.

(** [a LEFT JOIN b ON on]: a left row without partner is kept once, with
    nulls on the right. *)
Definition left_join {A B} (on : A -> B -> bool) (l : list A) (r : list B)
  : list (A * option B) :=
  flat_map (fun a =>
              match filter (on a) r with
              | [] => [(a, None)]
              | bs => map (fun b => (a, Some b)) bs
              end) l.

(** [UPDATE t SET ... WHERE cond], on one row and on the table *)
Definition update_row {A} (cond : A -> bool) (set : A -> A) (r : A) : A :=
  if cond r then set r else r.

Definition update {A} (cond : A -> bool) (set : A -> A) (t : list A) : list A :=
  map (update_row cond set) t.

(** [SELECT ... INTO v]: the first row, or nulls when there is none. *)
Definition first_row {A} (rows : list A) : option A :=
  match rows with [] => None | r :: _ => Some r end.

(** [x IN (subquery)] / [x NOT IN (subquery)] for a subquery without nulls
    ([stripe_customers.user_id] is [NOT NULL]). *)
Definition uuid_in (x : uuid) (ids : list uuid) : bool := existsb (N.eqb x) ids.

(** The subquery every trial function repeats:
    [SELECT DISTINCT c.user_id FROM stripe_customers c
     JOIN stripe_subscriptions s ON c.customer_id = s.customer_id
     WHERE s.status IN ('active', 'trialing')
     AND s.deleted_at IS NULL AND c.deleted_at IS NULL]
    ([DISTINCT] does not change membership). *)
Definition paying_user_ids (customers : list stripe_customer)
           (subscriptions : list stripe_subscription) : list uuid :=
  map (fun cs => sc_user_id (fst cs))
      (filter (fun cs => in_active_trialing (ss_status (snd cs))
                         && is_null (ss_deleted_at (snd cs))
                         && is_null (sc_deleted_at (fst cs)))
              (join (fun c s => String.eqb (sc_customer_id c) (ss_customer_id s))
                    customers subscriptions)).

(** What the subquery decides, in words: the user has a customer row and a
    subscription row of that customer, neither soft-deleted, whose status
    is active or trialing. *)
Definition holds_live_subscription (customers : list stripe_customer)
           (subscriptions : list stripe_subscription) (u : uuid) : Prop :=
  exists c s,
    In c customers /\ In s subscriptions /\
    sc_user_id c = u /\ sc_customer_id c = ss_customer_id s /\
    (ss_status s = S_active \/ ss_status s = S_trialing) /\
    ss_deleted_at s = None /\ sc_deleted_at c = None.

(** Setters of [user_trials] used by the [UPDATE]s. *)
Definition set_converted (now : timestamptz) (t : user_trial) : user_trial :=
  {| ut_user_id := ut_user_id t;
     trial_start_date := trial_start_date t;
     trial_end_date := trial_end_date t;
     ut_trial_status := T_converted_to_paid;
     deletion_scheduled_at := None;
     ut_updated_at := now |}.

Definition set_expired (now : timestamptz) (t : user_trial) : user_trial :=
  {| ut_user_id := ut_user_id t;
     trial_start_date := trial_start_date t;
     trial_end_date := trial_end_date t;
     ut_trial_status := T_expired;
     deletion_scheduled_at := Some (now + interval_1_day);
     ut_updated_at := now |}.

Definition set_scheduled (now : timestamptz) (t : user_trial) : user_trial :=
  {| ut_user_id := ut_user_id t;
     trial_start_date := trial_start_date t;
     trial_end_date := trial_end_date t;
     ut_trial_status := T_scheduled_for_deletion;
     deletion_scheduled_at := deletion_scheduled_at t;
     ut_updated_at := now |}.

(** [deletion_scheduled_at < now()] *)
Definition deletion_due (now : timestamptz) (t : user_trial) : bool :=
  match deletion_scheduled_at t with
  | Some d => d <? now
  | None => false
  end.


(** [ORDER BY created_at DESC]: does [a] sort no later than [b]?  Nulls sort
    first in descending order. *)
Definition sorts_first_desc (a b : option timestamptz) : bool :=
  match a, b with
  | None, _ => true
  | Some _, None => false
  | Some x, Some y => y <=? x
  end.

(** [ORDER BY key DESC LIMIT 1].  Among rows with equal keys SQL leaves the
    choice open; the embedding takes the first of them in table order. *)
Fixpoint order_by_desc_limit_1 {A} (key : A -> option timestamptz) (rows : list A)
  : option A :=
  match rows with
  | [] => None
  | r :: rest =>
      match order_by_desc_limit_1 key rest with
      | None => Some r
      | Some r' => if sorts_first_desc (key r) (key r') then Some r else Some r'
      end
  end.

(** [EXTRACT(days FROM (trial_end_date - now()))::integer] under its guard
    [trial_end_date > now()], else 0: the difference of two timestamps is an
    interval of whole 24-hour days and a rest. *)
Definition days_remaining (now : timestamptz) (trial_end : timestamptz) : Z :=
  if now <? trial_end then Z.quot (trial_end - now) interval_1_day else 0.

(** Errors a statement can raise; the transaction of the call is then
    rolled back. *)
Inductive exception :=
| invalid_text_representation   (* a text that is no label of the enum *)
| not_null_violation
| cardinality_violation         (* a scalar subquery with several rows *)
| datatype_mismatch.            (* an expression that its column cannot take *)

Inductive outcome (A : Type) :=
| Done (a : A)
| Raised (e : exception).

Arguments Done {A} a.
Arguments Raised {A} e.

(** [text::stripe_subscription_status] *)
Definition status_of_text (t : text) : option stripe_subscription_status :=
  if String.eqb t "not_started" then Some S_not_started
  else if String.eqb t "incomplete" then Some S_incomplete
  else if String.eqb t "incomplete_expired" then Some S_incomplete_expired
  else if String.eqb t "trialing" then Some S_trialing
  else if String.eqb t "active" then Some S_active
  else if String.eqb t "past_due" then Some S_past_due
  else if String.eqb t "canceled" then Some S_canceled
  else if String.eqb t "unpaid" then Some S_unpaid
  else if String.eqb t "paused" then Some S_paused
  else None.

(** [trial_status::text] *)
Definition trial_status_text (s : trial_status) : text :=
  match s with
  | T_active => "active"
  | T_expired => "expired"
  | T_converted_to_paid => "converted_to_paid"
  | T_scheduled_for_deletion => "scheduled_for_deletion"
  end%string.

(** ** Types of expressions *)

(** The types that occur in the [UPDATE]s of the derived state. *)
Inductive sql_type :=
| ty_unknown                      (* a string literal, not yet given a type *)
| ty_text
| ty_boolean
| ty_integer
| ty_timestamptz
| ty_account_status
| ty_access_level
| ty_stripe_subscription_status.

Definition sql_type_eqb (a b : sql_type) : bool :=
  match a, b with
  | ty_unknown, ty_unknown | ty_text, ty_text | ty_boolean, ty_boolean
  | ty_integer, ty_integer | ty_timestamptz, ty_timestamptz
  | ty_account_status, ty_account_status | ty_access_level, ty_access_level
  | ty_stripe_subscription_status, ty_stripe_subscription_status => true
  | _, _ => false
  end.

(** The type of [CASE .. THEN r1 .. ELSE rn END], from the types of its
    results: string literals take the type of the other results, and the
    type text when every result is a string literal. *)
Definition case_type (results : list sql_type) : sql_type :=
  match filter (fun t => negb (sql_type_eqb t ty_unknown)) results with
  | [] => ty_text
  | t :: _ => t
  end.

(** May an expression of type [e] be stored in a column of type [c]
    without an explicit cast?  A string literal is read as a value of the
    column's type; any other expression must have that type: between the
    types above there is no assignment cast, and none leads from text to
    an enumerated type. *)
Definition assignable (e c : sql_type) : bool :=
  sql_type_eqb e ty_unknown || sql_type_eqb e c.

(** * The final script: FINAL_COMPLETE_DATABASE_SETUP.sql *)

Module Final.

Inductive access_level := L_none | L_trial | L_basic | L_pro | L_enterprise.

Inductive account_status := A_active | A_trial | A_expired | A_suspended | A_deleted.

(** [user_account_state]: the derived summary, one row per user. *)
Record account_state := {
  uas_user_id : uuid;
  uas_email : text;
  uas_full_name : option text;
  uas_account_status : account_status;
  uas_access_level : access_level;
  uas_has_access : bool;
  uas_trial_days_remaining : Z;
  uas_stripe_customer_id : option text;
  uas_stripe_subscription_id : option text;
  uas_stripe_status : option stripe_subscription_status;
  uas_current_period_end : option Z;
  uas_axie_studio_user_id : option text;
  uas_axie_studio_status : option text;
  uas_created_at : option timestamptz;
  uas_updated_at : option timestamptz
}.

Record axie_studio_account := {
  asa_user_id : uuid;
  asa_axie_studio_user_id : text;
  asa_email : text;
  asa_status : option text;
  asa_deleted_at : option timestamptz
}.

Record database := {
  auth_users : list auth_user;
  user_account_state : list account_state;
  user_trials : list user_trial;
  stripe_customers : list stripe_customer;
  stripe_subscriptions : list stripe_subscription;
  axie_studio_accounts : list axie_studio_account
}.

Definition with_user_trials (db : database) (t : list user_trial) : database :=
  {| auth_users := auth_users db;
     user_account_state := user_account_state db;
     user_trials := t;
     stripe_customers := stripe_customers db;
     stripe_subscriptions := stripe_subscriptions db;
     axie_studio_accounts := axie_studio_accounts db |}.

Definition with_user_account_state (db : database) (s : list account_state) : database :=
  {| auth_users := auth_users db;
     user_account_state := s;
     user_trials := user_trials db;
     stripe_customers := stripe_customers db;
     stripe_subscriptions := stripe_subscriptions db;
     axie_studio_accounts := axie_studio_accounts db |}.

(** The users of the repeated subquery, on this database. *)
Definition paying (db : database) : list uuid :=
  paying_user_ids (stripe_customers db) (stripe_subscriptions db).

(** ** protect_paying_customers *)

(** [WHERE user_id IN (..) AND trial_status IN ('expired',
    'scheduled_for_deletion')] *)
Definition to_protect (pay : list uuid) (t : user_trial) : bool :=
  uuid_in (ut_user_id t) pay
  && (trial_status_eqb (ut_trial_status t) T_expired
      || trial_status_eqb (ut_trial_status t) T_scheduled_for_deletion).

Definition protect_paying_customers (now : timestamptz) (db : database) : database :=
  with_user_trials db
    (update (to_protect (paying db)) (set_converted now) (user_trials db)).

(** ** sync_subscription_status: its three [UPDATE]s, in order *)

(** [WHERE user_id IN (..) AND trial_status NOT IN ('converted_to_paid')] *)
Definition to_convert (pay : list uuid) (t : user_trial) : bool :=
  uuid_in (ut_user_id t) pay
  && negb (trial_status_eqb (ut_trial_status t) T_converted_to_paid).

(** [WHERE trial_end_date < now() AND trial_status = 'active'
    AND user_id != super admin AND user_id NOT IN (..)] *)
Definition to_expire (now : timestamptz) (pay : list uuid) (t : user_trial) : bool :=
  (trial_end_date t <? now)
  && trial_status_eqb (ut_trial_status t) T_active
  && negb (N.eqb (ut_user_id t) super_admin_id)
  && negb (uuid_in (ut_user_id t) pay).

(** [WHERE trial_status = 'expired' AND deletion_scheduled_at < now()
    AND user_id != super admin AND user_id NOT IN (..)] *)
Definition to_schedule (now : timestamptz) (pay : list uuid) (t : user_trial) : bool :=
  trial_status_eqb (ut_trial_status t) T_expired
  && deletion_due now t
  && negb (N.eqb (ut_user_id t) super_admin_id)
  && negb (uuid_in (ut_user_id t) pay).

Definition mark_converted (now : timestamptz) (db : database) : database :=
  with_user_trials db
    (update (to_convert (paying db)) (set_converted now) (user_trials db)).

Definition expire_trials (now : timestamptz) (db : database) : database :=
  with_user_trials db
    (update (to_expire now (paying db)) (set_expired now) (user_trials db)).

Definition schedule_deletions (now : timestamptz) (db : database) : database :=
  with_user_trials db
    (update (to_schedule now (paying db)) (set_scheduled now) (user_trials db)).

Definition sync_subscription_status (now : timestamptz) (db : database) : database :=
  schedule_deletions now (expire_trials now (mark_converted now db)).

(** ** check_expired_trials *)

Definition check_expired_trials (now : timestamptz) (db : database) : database :=
  sync_subscription_status now (protect_paying_customers now db).

(** What [sync_subscription_status] does to one row of [user_trials]: its
    three [UPDATE]s in order, [pay] being the users of the subquery. *)
Definition sync_pass (now : timestamptz) (pay : list uuid) (t : user_trial)
  : user_trial :=
  update_row (to_schedule now pay) (set_scheduled now)
    (update_row (to_expire now pay) (set_expired now)
       (update_row (to_convert pay) (set_converted now) t)).

(** What [check_expired_trials] does to one row. *)
Definition trial_pass (now : timestamptz) (pay : list uuid) (t : user_trial)
  : user_trial :=
  sync_pass now pay (update_row (to_protect pay) (set_converted now) t).

(** ** get_users_for_deletion *)

Record deletion_candidate := {
  dc_user_id : uuid;
  dc_email : text;
  dc_trial_end_date : timestamptz
}.

Definition get_users_for_deletion (now : timestamptz) (db : database)
  : list deletion_candidate :=
  map (fun r => {| dc_user_id := ut_user_id (fst r);
                   dc_email := au_email (snd r);
                   dc_trial_end_date := trial_end_date (fst r) |})
      (filter (fun r =>
                 trial_status_eqb (ut_trial_status (fst r)) T_scheduled_for_deletion
                 && negb (N.eqb (ut_user_id (fst r)) super_admin_id)
                 && negb (uuid_in (ut_user_id (fst r)) (paying db))
                 && (trial_end_date (fst r) <? now - interval_1_day))
              (join (fun ut au => N.eqb (ut_user_id ut) (au_id au))
                    (user_trials db) (auth_users db))).

(** ** mark_trial_converted *)

Definition mark_trial_converted (now : timestamptz) (p_user_id : uuid) (db : database)
  : database :=
  with_user_trials db
    (update (fun t => N.eqb (ut_user_id t) p_user_id)
            (set_converted now)
            (user_trials db)).

(** ** verify_user_protection *)

Record protection_report := {
  pr_user_id : uuid;
  pr_email : text;
  is_protected : bool;
  protection_reason : text;
  pr_trial_status : text;
  pr_subscription_status : text
}.

(** [auth.users u LEFT JOIN user_trials ut .. LEFT JOIN stripe_customers sc ..
    LEFT JOIN stripe_subscriptions ss ON sc.customer_id = ss.customer_id
    AND ss.status IN ('active', 'trialing') AND ss.deleted_at IS NULL].
    The last condition is null, hence not met, on a row without customer. *)
Definition protection_rows (db : database)
  : list (auth_user * option user_trial * option stripe_customer
          * option stripe_subscription) :=
  left_join
    (fun r ss =>
       match snd r with
       | Some sc => String.eqb (sc_customer_id sc) (ss_customer_id ss)
                    && in_active_trialing (ss_status ss)
                    && is_null (ss_deleted_at ss)
       | None => false
       end)
    (left_join (fun r sc => N.eqb (au_id (fst r)) (sc_user_id sc))
               (left_join (fun u ut => N.eqb (au_id u) (ut_user_id ut))
                          (auth_users db) (user_trials db))
               (stripe_customers db))
    (stripe_subscriptions db).

Definition verify_user_protection (p_user_id : uuid) (db : database)
  : list protection_report :=
  map (fun r =>
         let '(u, ut, _, ss) := r in
         let paid := is_true (sql_in_active_trialing (option_map ss_status ss)) in
         {| pr_user_id := au_id u;
            pr_email := au_email u;
            is_protected :=
              if N.eqb (au_id u) super_admin_id then true
              else if paid then true
              else false;
            protection_reason :=
              if N.eqb (au_id u) super_admin_id then "Super Admin Account"
              else if paid then "Active Subscription"
              else "No Protection";
            pr_trial_status :=
              match ut with
              | Some t => trial_status_text (ut_trial_status t)
              | None => "none"
              end;
            pr_subscription_status :=
              match ss with
              | Some s => status_text (ss_status s)
              | None => "none"
              end |}%string)
      (filter (fun r => let '(u, _, _, _) := r in N.eqb (au_id u) p_user_id)
              (protection_rows db)).

(** ** sync_user_state *)

(** The jsonb object the function returns. *)
Record sync_report := {
  sr_user_id : uuid;
  sr_email : option text;
  sr_has_subscription : sql_bool;
  sr_subscription_status : option text;
  sr_trial_days_remaining : Z;
  sr_sync_timestamp : timestamptz
}.

(** [SELECT email INTO v_user_email FROM auth.users WHERE id = p_user_id] *)
Definition user_email (p_user_id : uuid) (db : database) : option text :=
  option_map au_email
             (first_row (filter (fun u => N.eqb (au_id u) p_user_id) (auth_users db))).

(** The row of the subscription query:
    [FROM stripe_customers sc LEFT JOIN stripe_subscriptions ss
     ON sc.customer_id = ss.customer_id AND ss.deleted_at IS NULL
     WHERE sc.user_id = p_user_id ORDER BY ss.created_at DESC LIMIT 1]. *)
Definition latest_subscription (p_user_id : uuid) (db : database)
  : option (stripe_customer * option stripe_subscription) :=
  order_by_desc_limit_1
    (fun r => match snd r with Some ss => ss_created_at ss | None => None end)
    (filter (fun r => N.eqb (sc_user_id (fst r)) p_user_id)
            (left_join (fun sc ss => String.eqb (sc_customer_id sc) (ss_customer_id ss)
                                     && is_null (ss_deleted_at ss))
                       (stripe_customers db) (stripe_subscriptions db))).

(** [CASE WHEN ss.status IN ('active', 'trialing') THEN true ELSE false END]
    of that row; null when the query has no row. *)
Definition has_subscription (p_user_id : uuid) (db : database) : sql_bool :=
  match latest_subscription p_user_id db with
  | Some r => Some (is_true (sql_in_active_trialing (option_map ss_status (snd r))))
  | None => None
  end.

(** [COALESCE(ss.status::text, 'none')] of that row; null without row. *)
Definition subscription_status (p_user_id : uuid) (db : database) : option text :=
  match latest_subscription p_user_id db with
  | Some r => Some match snd r with
                   | Some ss => status_text (ss_status ss)
                   | None => "none"%string
                   end
  | None => None
  end.

(** [v_trial_days]: null when the user has no trial row. *)
Definition trial_days (now : timestamptz) (p_user_id : uuid) (db : database) : option Z :=
  option_map (fun t => days_remaining now (trial_end_date t))
             (first_row (filter (fun t => N.eqb (ut_user_id t) p_user_id)
                                (user_trials db))).

(** [v_subscription_status::stripe_subscription_status]: a null stays
    null, a text must be a label of the enum. *)
Definition cast_status (v : option text)
  : option (option stripe_subscription_status) :=
  match v with
  | None => Some None
  | Some t => option_map Some (status_of_text t)
  end.

(** The columns that the [UPDATE] of [sync_user_state] sets, with their
    types as [CREATE TABLE user_account_state] declares them. *)
Inductive column :=
| col_email
| col_account_status
| col_access_level
| col_has_access
| col_trial_days_remaining
| col_stripe_status
| col_updated_at.

Definition column_type (c : column) : sql_type :=
  match c with
  | col_email => ty_text
  | col_account_status => ty_account_status
  | col_access_level => ty_access_level
  | col_has_access => ty_boolean
  | col_trial_days_remaining => ty_integer
  | col_stripe_status => ty_stripe_subscription_status
  | col_updated_at => ty_timestamptz
  end.

(** The value of an expression, which carries its type. *)
Inductive value :=
| text_value (v : option text)
| boolean_value (v : bool)
| integer_value (v : Z)
| timestamptz_value (v : timestamptz)
| account_status_value (v : account_status)
| access_level_value (v : access_level)
| stripe_status_value (v : option stripe_subscription_status).

Definition type_of (v : value) : sql_type :=
  match v with
  | text_value _ => ty_text
  | boolean_value _ => ty_boolean
  | integer_value _ => ty_integer
  | timestamptz_value _ => ty_timestamptz
  | account_status_value _ => ty_account_status
  | access_level_value _ => ty_access_level
  | stripe_status_value _ => ty_stripe_subscription_status
  end.

(** One [column = expression] of a [SET] list: the type that the analysis
    of the statement gives the expression, and what its evaluation gives
    when the statement runs on a row. *)
Record assignment := {
  target : column;
  expression_type : sql_type;
  expression_value : outcome value
}.

(** The [SET] list of [sync_user_state]:
    [email = v_user_email,
     account_status = CASE WHEN v_has_subscription THEN 'active'
                           WHEN v_trial_days > 0 THEN 'trial' ELSE 'expired' END,
     access_level = CASE WHEN v_has_subscription THEN 'pro'
                         WHEN v_trial_days > 0 THEN 'trial' ELSE 'none' END,
     has_access = CASE WHEN v_has_subscription OR v_trial_days > 0
                       THEN true ELSE false END,
     trial_days_remaining = COALESCE(v_trial_days, 0),
     stripe_status = v_subscription_status::stripe_subscription_status,
     updated_at = now()].
    The results of the first two [CASE]s are string literals, so their
    values are texts. *)
Definition sync_user_state_set_list (now : timestamptz) (v_user_email : option text)
           (v_has_subscription : sql_bool) (v_trial_days : option Z)
           (v_subscription_status : option text) : list assignment :=
  [ {| target := col_email;
       expression_type := ty_text;
       expression_value := Done (text_value v_user_email) |};
    {| target := col_account_status;
       expression_type := case_type [ty_unknown; ty_unknown; ty_unknown];
       expression_value :=
         Done (text_value
                 (Some (if is_true v_has_subscription then "active"
                        else if is_true (sql_gt v_trial_days (Some 0)) then "trial"
                        else "expired"))) |};
    {| target := col_access_level;
       expression_type := case_type [ty_unknown; ty_unknown; ty_unknown];
       expression_value :=
         Done (text_value
                 (Some (if is_true v_has_subscription then "pro"
                        else if is_true (sql_gt v_trial_days (Some 0)) then "trial"
                        else "none"))) |};
    {| target := col_has_access;
       expression_type := case_type [ty_boolean; ty_boolean];
       expression_value :=
         Done (boolean_value (if is_true (sql_or v_has_subscription
                                                 (sql_gt v_trial_days (Some 0)))
                              then true else false)) |};
    {| target := col_trial_days_remaining;
       expression_type := ty_integer;
       expression_value :=
         Done (integer_value (match v_trial_days with Some d => d | None => 0 end)) |};
    {| target := col_stripe_status;
       expression_type := ty_stripe_subscription_status;
       expression_value :=
         match cast_status v_subscription_status with
         | Some v_stripe_status => Done (stripe_status_value v_stripe_status)
         | None => Raised invalid_text_representation
         end |};
    {| target := col_updated_at;
       expression_type := ty_timestamptz;
       expression_value := Done (timestamptz_value now) |} ].

(** The analysis of an [UPDATE .. SET ..]: every expression must be
    assignable to its column.  PL/pgSQL analyses a statement when a call
    reaches it, before any row is looked at. *)
Definition analyse_update (set_list : list assignment) : option exception :=
  if forallb (fun a => assignable (expression_type a) (column_type (target a))) set_list
  then None
  else Some datatype_mismatch.

(** [column = value] on one row.  A value is stored in a column of its
    type only; [email] is [NOT NULL]. *)
Definition store_value (c : column) (v : value) (r : account_state)
  : outcome account_state :=
  if negb (sql_type_eqb (type_of v) (column_type c)) then Raised datatype_mismatch
  else
    match c, v with
    | col_email, text_value None => Raised not_null_violation
    | _, _ =>
        Done
          {| uas_user_id := uas_user_id r;
             uas_email :=
               match c, v with
               | col_email, text_value (Some e) => e
               | _, _ => uas_email r
               end;
             uas_full_name := uas_full_name r;
             uas_account_status :=
               match c, v with
               | col_account_status, account_status_value a => a
               | _, _ => uas_account_status r
               end;
             uas_access_level :=
               match c, v with
               | col_access_level, access_level_value l => l
               | _, _ => uas_access_level r
               end;
             uas_has_access :=
               match c, v with
               | col_has_access, boolean_value b => b
               | _, _ => uas_has_access r
               end;
             uas_trial_days_remaining :=
               match c, v with
               | col_trial_days_remaining, integer_value n => n
               | _, _ => uas_trial_days_remaining r
               end;
             uas_stripe_customer_id := uas_stripe_customer_id r;
             uas_stripe_subscription_id := uas_stripe_subscription_id r;
             uas_stripe_status :=
               match c, v with
               | col_stripe_status, stripe_status_value st => st
               | _, _ => uas_stripe_status r
               end;
             uas_current_period_end := uas_current_period_end r;
             uas_axie_studio_user_id := uas_axie_studio_user_id r;
             uas_axie_studio_status := uas_axie_studio_status r;
             uas_created_at := uas_created_at r;
             uas_updated_at :=
               match c, v with
               | col_updated_at, timestamptz_value t => Some t
               | _, _ => uas_updated_at r
               end |}
    end.

(** The whole [SET] list on one row. *)
Fixpoint store_all (set_list : list assignment) (r : account_state)
  : outcome account_state :=
  match set_list with
  | [] => Done r
  | a :: rest =>
      match expression_value a with
      | Raised e => Raised e
      | Done v =>
          match store_value (target a) v r with
          | Done r' => store_all rest r'
          | Raised e => Raised e
          end
      end
  end.

(** The rows of a table under an [UPDATE] whose [SET] list can fail. *)
Fixpoint update_rows {A} (cond : A -> bool) (set : A -> outcome A) (t : list A)
  : outcome (list A) :=
  match t with
  | [] => Done []
  | r :: rest =>
      match (if cond r then set r else Done r) with
      | Raised e => Raised e
      | Done r' =>
          match update_rows cond set rest with
          | Raised e => Raised e
          | Done rest' => Done (r' :: rest')
          end
      end
  end.

(** The three [SELECT .. INTO] complete whatever the tables hold.  The
    [UPDATE] is then analysed, and refused when an expression is not
    assignable to its column; the error ends the call, whether or not a
    row of [user_account_state] matches.  An accepted [UPDATE] evaluates
    its [SET] expressions for the rows the [WHERE] keeps. *)
Definition sync_user_state (now : timestamptz) (p_user_id : uuid) (db : database)
  : outcome (database * sync_report) :=
  let v_user_email := user_email p_user_id db in
  let v_has_subscription := has_subscription p_user_id db in
  let v_subscription_status := subscription_status p_user_id db in
  let v_trial_days := trial_days now p_user_id db in
  let v_result :=
    {| sr_user_id := p_user_id;
       sr_email := v_user_email;
       sr_has_subscription := v_has_subscription;
       sr_subscription_status := v_subscription_status;
       sr_trial_days_remaining := match v_trial_days with Some d => d | None => 0 end;
       sr_sync_timestamp := now |} in
  let set_list := sync_user_state_set_list now v_user_email v_has_subscription
                                           v_trial_days v_subscription_status in
  match analyse_update set_list with
  | Some e => Raised e
  | None =>
      match update_rows (fun r => N.eqb (uas_user_id r) p_user_id)
                        (store_all set_list) (user_account_state db) with
      | Raised e => Raised e
      | Done rows => Done (with_user_account_state db rows, v_result)
      end
  end.

(** ** on_subscription_change, the row trigger [AFTER INSERT OR UPDATE ON
    stripe_subscriptions]; [db] already holds the written row [NEW].  The
    scalar subquery is null without customer row; [sync_user_state] is
    called all the same, no row of any table has [user_id = NULL], and its
    [UPDATE] is analysed like on any call.  An error of the trigger aborts
    the statement that wrote [NEW]. *)
Definition on_subscription_change (now : timestamptz) (NEW : stripe_subscription)
           (db : database) : outcome database :=
  match filter (fun c => String.eqb (sc_customer_id c) (ss_customer_id NEW))
               (stripe_customers db) with
  | [] => match analyse_update (sync_user_state_set_list now None None None None) with
          | Some e => Raised e
          | None => Done db
          end
  | [c] => match sync_user_state now (sc_user_id c) db with
           | Done (db', _) => Done db'
           | Raised e => Raised e
           end
  | _ => Raised cardinality_violation
  end.

(** ** A reconciliation run for one user.  The script has no function of
    this name: it is the sequence the design calls a run,
    [check_expired_trials()] followed by [sync_user_state(p_user_id)], in
    one transaction. *)
Definition reconcile (now : timestamptz) (p_user_id : uuid) (db : database)
  : outcome (database * sync_report) :=
  sync_user_state now p_user_id (check_expired_trials now db).

(** ** get_user_access_level *)

Definition access_level_text (l : access_level) : text :=
  match l with
  | L_none => "none"
  | L_trial => "trial"
  | L_basic => "basic"
  | L_pro => "pro"
  | L_enterprise => "enterprise"
  end%string.

Record access_report := {
  ar_access_level : text;
  ar_has_access : bool;
  ar_access_type : text;
  ar_trial_days_remaining : Z
}.

(** [auth.users u LEFT JOIN user_account_state uas .. LEFT JOIN user_trials ut
    .. LEFT JOIN stripe_customers sc .. LEFT JOIN stripe_subscriptions ss ON
    sc.customer_id = ss.customer_id AND ss.status IN ('active', 'trialing')
    AND ss.deleted_at IS NULL] *)
Definition access_rows (db : database)
  : list (auth_user * option account_state * option user_trial
          * option stripe_customer * option stripe_subscription) :=
  left_join
    (fun r ss =>
       match snd r with
       | Some sc => String.eqb (sc_customer_id sc) (ss_customer_id ss)
                    && in_active_trialing (ss_status ss)
                    && is_null (ss_deleted_at ss)
       | None => false
       end)
    (left_join (fun r sc => N.eqb (au_id (fst (fst r))) (sc_user_id sc))
               (left_join (fun r ut => N.eqb (au_id (fst r)) (ut_user_id ut))
                          (left_join (fun u uas => N.eqb (au_id u) (uas_user_id uas))
                                     (auth_users db) (user_account_state db))
                          (user_trials db))
               (stripe_customers db))
    (stripe_subscriptions db).

(** [level] and [has_access] are read from the derived state, [access_type]
    is computed from the billing and trial rows at [now]. *)
Definition get_user_access_level (now : timestamptz) (p_user_id : uuid) (db : database)
  : list access_report :=
  map (fun r =>
         let '(u, uas, ut, _, ss) := r in
         {| ar_access_level :=
              match uas with
              | Some a => access_level_text (uas_access_level a)
              | None => "none"
              end;
            ar_has_access :=
              match uas with Some a => uas_has_access a | None => false end;
            ar_access_type :=
              if is_true (sql_in_active_trialing (option_map ss_status ss))
              then "subscription"
              else if is_true
                        (sql_and
                           (option_map (fun t => trial_status_eqb (ut_trial_status t)
                                                                  T_active) ut)
                           (sql_gt (option_map trial_end_date ut) (Some now)))
                   then "trial"
                   else "none";
            ar_trial_days_remaining :=
              match uas with Some a => uas_trial_days_remaining a | None => 0 end |}%string)
      (filter (fun r => let '(u, _, _, _, _) := r in N.eqb (au_id u) p_user_id)
              (access_rows db)).

(** ** get_system_metrics *)



(** ** check_database_health.  The four counts are what the queries on
    [information_schema] return. *)

Record component_health := {
  expected : Z;
  found : Z;
  status : text
}.

Record health_report := {
  health_tables : component_health;
  health_functions : component_health;
  health_views : component_health;
  health_triggers : component_health;
  overall_status : text;
  health_timestamp : timestamptz
}.

Definition check_database_health (now : timestamptz)
           (table_count function_count view_count trigger_count : Z) : health_report :=
  {| health_tables :=
       {| expected := 6; found := table_count;
          status := if table_count =? 6 then "OK" else "MISSING" |};
     health_functions :=
       {| expected := 17; found := function_count;
          status := if function_count =? 17 then "OK" else "MISSING" |};
     health_views :=
       {| expected := 4; found := view_count;
          status := if view_count =? 4 then "OK" else "MISSING" |};
     health_triggers :=
       {| expected := 6; found := trigger_count;
          status := if trigger_count =? 6 then "OK" else "MISSING" |};
     health_timestamp := now;
     overall_status :=
       if (table_count =? 6) && (function_count =? 17) && (view_count =? 4)
          && (trigger_count =? 8)
       then "HEALTHY" else "ISSUES_DETECTED" |}.

(** ** sync_all_users: the loop over [auth.users], one [sync_user_state]
    per row; an error of one call ends the function. *)

Record sync_all_report := {
  total_synced : nat;
  results : list sync_report;
  sar_timestamp : timestamptz
}.

Fixpoint sync_each (now : timestamptz) (ids : list uuid) (db : database)
  : outcome (database * list sync_report) :=
  match ids with
  | [] => Done (db, [])
  | id :: rest =>
      match sync_user_state now id db with
      | Raised e => Raised e
      | Done (db1, v_sync_result) =>
          match sync_each now rest db1 with
          | Raised e => Raised e
          | Done (db2, v_results) => Done (db2, v_sync_result :: v_results)
          end
      end
  end.

Definition sync_all_users (now : timestamptz) (db : database)
  : outcome (database * sync_all_report) :=
  match sync_each now (map au_id (auth_users db)) db with
  | Raised e => Raised e
  | Done (db', v_results) =>
      Done (db', {| total_synced := List.length v_results;
                    results := v_results;
                    sar_timestamp := now |})
  end.

(** ** Sign-up: create_complete_user_profile and the trigger
    on_auth_user_created_enhanced [AFTER INSERT ON auth.users] *)

Record user_profile := {
  up_id : uuid;
  up_full_name : option text;
  up_avatar_url : option text;
  up_created_at : option timestamptz;
  up_updated_at : option timestamptz
}.

(** The tables of the sign-up: those of [database] and [user_profiles]. *)
Record store := {
  tables : database;
  user_profiles : list user_profile
}.

(** What an [INSERT] can be refused for. *)
Inductive constraint_violation :=
| unique_violation
| foreign_key_violation.

Inductive attempt (A : Type) :=
| Stored (a : A)
| Refused (v : constraint_violation).

Arguments Stored {A} a.
Arguments Refused {A} v.

Definition interval_7_days : Z := 7 * interval_1_day.

(** [INSERT INTO user_profiles .. ON CONFLICT (id) DO UPDATE SET full_name =
    EXCLUDED.full_name, updated_at = now()]; a new row must reference a row
    of [auth.users]. *)
Definition upsert_profile (now : timestamptz) (p_user_id : uuid)
           (p_full_name : option text) (s : store) : attempt store :=
  if existsb (fun p => N.eqb (up_id p) p_user_id) (user_profiles s) then
    Stored {| tables := tables s;
              user_profiles :=
                update (fun p => N.eqb (up_id p) p_user_id)
                       (fun p => {| up_id := up_id p;
                                    up_full_name := p_full_name;
                                    up_avatar_url := up_avatar_url p;
                                    up_created_at := up_created_at p;
                                    up_updated_at := Some now |})
                       (user_profiles s) |}
  else if uuid_in p_user_id (map au_id (auth_users (tables s))) then
    Stored {| tables := tables s;
              user_profiles :=
                user_profiles s
                ++ [{| up_id := p_user_id;
                       up_full_name := p_full_name;
                       up_avatar_url := None;
                       up_created_at := Some now;
                       up_updated_at := Some now |}] |}
  else Refused foreign_key_violation.

(** [INSERT INTO user_account_state .. VALUES (p_user_id, p_email,
    p_full_name, 'trial', 'trial', true, 7, now(), now())
    ON CONFLICT (user_id) DO NOTHING]; [email] is [UNIQUE], which the index
    refuses at once, and the row must reference a row of [auth.users],
    which is checked when the statement ends. *)
Definition insert_account_state (now : timestamptz) (p_user_id : uuid)
           (p_email : text) (p_full_name : option text) (db : database)
  : attempt database :=
  if existsb (fun r => N.eqb (uas_user_id r) p_user_id) (user_account_state db) then
    Stored db
  else if existsb (fun r => String.eqb (uas_email r) p_email) (user_account_state db) then
    Refused unique_violation
  else if negb (uuid_in p_user_id (map au_id (auth_users db))) then
    Refused foreign_key_violation
  else
    Stored (with_user_account_state db
              (user_account_state db
               ++ [{| uas_user_id := p_user_id;
                      uas_email := p_email;
                      uas_full_name := p_full_name;
                      uas_account_status := A_trial;
                      uas_access_level := L_trial;
                      uas_has_access := true;
                      uas_trial_days_remaining := 7;
                      uas_stripe_customer_id := None;
                      uas_stripe_subscription_id := None;
                      uas_stripe_status := None;
                      uas_current_period_end := None;
                      uas_axie_studio_user_id := None;
                      uas_axie_studio_status := Some "pending"%string;
                      uas_created_at := Some now;
                      uas_updated_at := Some now |}])).

Definition create_complete_user_profile (now : timestamptz) (p_user_id : uuid)
           (p_email : text) (p_full_name : option text) (s : store) : attempt store :=
  match upsert_profile now p_user_id p_full_name s with
  | Refused v => Refused v
  | Stored s1 =>
      match insert_account_state now p_user_id p_email p_full_name (tables s1) with
      | Refused v => Refused v
      | Stored db => Stored {| tables := db; user_profiles := user_profiles s1 |}
      end
  end.

(** [INSERT INTO user_trials (user_id, trial_start_date, trial_end_date)
    VALUES (NEW.id, now(), now() + interval '7 days')
    ON CONFLICT (user_id) DO NOTHING]; the other columns take their
    defaults. *)
Definition insert_trial (now : timestamptz) (p_user_id : uuid) (db : database)
  : attempt database :=
  if existsb (fun t => N.eqb (ut_user_id t) p_user_id) (user_trials db) then
    Stored db
  else if negb (uuid_in p_user_id (map au_id (auth_users db))) then
    Refused foreign_key_violation
  else
    Stored (with_user_trials db
              (user_trials db
               ++ [{| ut_user_id := p_user_id;
                      trial_start_date := now;
                      trial_end_date := now + interval_7_days;
                      ut_trial_status := T_active;
                      deletion_scheduled_at := None;
                      ut_updated_at := now |}])).

(** [NEW] is the row just inserted into [auth.users], which the store
    already holds; [full_name] is [NEW.raw_user_meta_data->>'full_name']. *)
Definition on_auth_user_created_enhanced (now : timestamptz) (NEW : auth_user)
           (full_name : option text) (s : store) : attempt store :=
  match create_complete_user_profile now (au_id NEW) (au_email NEW) full_name s with
  | Refused v => Refused v
  | Stored s1 =>
      match insert_trial now (au_id NEW) (tables s1) with
      | Refused v => Refused v
      | Stored db => Stored {| tables := db; user_profiles := user_profiles s1 |}
      end
  end.

End Final.

(** * The earlier script: COMPLETE_DATABASE_SETUP.sql, whose enterprise half
      (tables and [sync_user_state]) the enhancement script repeats word for
      word *)

Module Complete.

Inductive user_account_status :=
| trial_active
| trial_expired
| subscription_active
| subscription_trialing
| subscription_past_due
| subscription_canceled
| account_suspended
| account_deleted.

Record account_state := {
  uas_user_id : uuid;
  uas_account_status : user_account_status;
  uas_has_access : bool;
  uas_access_level : text;
  uas_trial_start_date : option timestamptz;
  uas_trial_end_date : option timestamptz;
  uas_trial_days_remaining : Z;
  uas_stripe_customer_id : option text;
  uas_stripe_subscription_id : option text;
  uas_subscription_status : option text;
  uas_current_period_end : option timestamptz;
  uas_axie_studio_user_id : option text;
  uas_axie_studio_status : option text;
  uas_created_at : option timestamptz;
  uas_updated_at : option timestamptz;
  uas_last_activity_at : option timestamptz;
  uas_notes : option text;
  uas_admin_flags : option text
}.

Record axie_studio_account := {
  asa_user_id : uuid;
  asa_axie_studio_user_id : text;
  asa_axie_studio_email : text;
  asa_account_status : option text
}.

Record database := {
  auth_users : list auth_user;
  user_account_state : list account_state;
  user_trials : list user_trial;
  stripe_customers : list stripe_customer;
  stripe_subscriptions : list stripe_subscription;
  axie_studio_accounts : list axie_studio_account
}.

Definition with_user_trials (db : database) (t : list user_trial) : database :=
  {| auth_users := auth_users db;
     user_account_state := user_account_state db;
     user_trials := t;
     stripe_customers := stripe_customers db;
     stripe_subscriptions := stripe_subscriptions db;
     axie_studio_accounts := axie_studio_accounts db |}.

Definition with_user_account_state (db : database) (s : list account_state) : database :=
  {| auth_users := auth_users db;
     user_account_state := s;
     user_trials := user_trials db;
     stripe_customers := stripe_customers db;
     stripe_subscriptions := stripe_subscriptions db;
     axie_studio_accounts := axie_studio_accounts db |}.

Definition paying (db : database) : list uuid :=
  paying_user_ids (stripe_customers db) (stripe_subscriptions db).

(** ** The trial functions of this script: those of the final script
    without the tests on the super admin's id. *)

Definition to_protect (pay : list uuid) (t : user_trial) : bool :=
  uuid_in (ut_user_id t) pay
  && (trial_status_eqb (ut_trial_status t) T_expired
      || trial_status_eqb (ut_trial_status t) T_scheduled_for_deletion).

Definition to_convert (pay : list uuid) (t : user_trial) : bool :=
  uuid_in (ut_user_id t) pay
  && negb (trial_status_eqb (ut_trial_status t) T_converted_to_paid).

(** [WHERE trial_end_date < now() AND trial_status = 'active'
    AND user_id NOT IN (..)] *)
Definition to_expire (now : timestamptz) (pay : list uuid) (t : user_trial) : bool :=
  (trial_end_date t <? now)
  && trial_status_eqb (ut_trial_status t) T_active
  && negb (uuid_in (ut_user_id t) pay).

(** [WHERE trial_status = 'expired' AND deletion_scheduled_at < now()
    AND user_id NOT IN (..)] *)
Definition to_schedule (now : timestamptz) (pay : list uuid) (t : user_trial) : bool :=
  trial_status_eqb (ut_trial_status t) T_expired
  && deletion_due now t
  && negb (uuid_in (ut_user_id t) pay).

Definition protect_paying_customers (now : timestamptz) (db : database) : database :=
  with_user_trials db
    (update (to_protect (paying db)) (set_converted now) (user_trials db)).

Definition mark_converted (now : timestamptz) (db : database) : database :=
  with_user_trials db
    (update (to_convert (paying db)) (set_converted now) (user_trials db)).

Definition expire_trials (now : timestamptz) (db : database) : database :=
  with_user_trials db
    (update (to_expire now (paying db)) (set_expired now) (user_trials db)).

Definition schedule_deletions (now : timestamptz) (db : database) : database :=
  with_user_trials db
    (update (to_schedule now (paying db)) (set_scheduled now) (user_trials db)).

Definition sync_subscription_status (now : timestamptz) (db : database) : database :=
  schedule_deletions now (expire_trials now (mark_converted now db)).

Definition check_expired_trials (now : timestamptz) (db : database) : database :=
  sync_subscription_status now (protect_paying_customers now db).

(** What [check_expired_trials] does to one row. *)
Definition trial_pass (now : timestamptz) (pay : list uuid) (t : user_trial)
  : user_trial :=
  update_row (to_schedule now pay) (set_scheduled now)
    (update_row (to_expire now pay) (set_expired now)
       (update_row (to_convert pay) (set_converted now)
          (update_row (to_protect pay) (set_converted now) t))).

(** [get_users_for_deletion], as [(user_id, email, trial_end_date)]. *)
Definition get_users_for_deletion (now : timestamptz) (db : database)
  : list (uuid * text * timestamptz) :=
  map (fun r => (ut_user_id (fst r), au_email (snd r), trial_end_date (fst r)))
      (filter (fun r =>
                 trial_status_eqb (ut_trial_status (fst r)) T_scheduled_for_deletion
                 && negb (uuid_in (ut_user_id (fst r)) (paying db))
                 && (trial_end_date (fst r) <? now - interval_1_day))
              (join (fun ut au => N.eqb (ut_user_id ut) (au_id au))
                    (user_trials db) (auth_users db))).

(** ** sync_user_state *)

(** [v_stripe_info]: the columns the query selects, all null when it has
    no row. *)
Record stripe_info := {
  si_customer_id : option text;
  si_subscription_id : option text;
  si_status : option stripe_subscription_status;
  si_current_period_end : option Z
}.

(** [FROM stripe_customers c LEFT JOIN stripe_subscriptions s
     ON c.customer_id = s.customer_id
     WHERE c.user_id = p_user_id AND c.deleted_at IS NULL
     AND (s.deleted_at IS NULL OR s.deleted_at IS NULL)], first row. *)
Definition get_stripe_info (p_user_id : uuid) (db : database) : stripe_info :=
  match first_row
          (filter (fun r =>
                     N.eqb (sc_user_id (fst r)) p_user_id
                     && is_null (sc_deleted_at (fst r))
                     && match snd r with
                        | Some s => is_null (ss_deleted_at s) || is_null (ss_deleted_at s)
                        | None => true
                        end)
                  (left_join (fun c s => String.eqb (sc_customer_id c) (ss_customer_id s))
                             (stripe_customers db) (stripe_subscriptions db))) with
  | Some (c, Some s) =>
      {| si_customer_id := Some (sc_customer_id c);
         si_subscription_id := ss_subscription_id s;
         si_status := Some (ss_status s);
         si_current_period_end := ss_current_period_end s |}
  | Some (c, None) =>
      {| si_customer_id := Some (sc_customer_id c);
         si_subscription_id := None;
         si_status := None;
         si_current_period_end := None |}
  | None =>
      {| si_customer_id := None;
         si_subscription_id := None;
         si_status := None;
         si_current_period_end := None |}
  end.

(** [v_stripe_info.status IN ('label')] *)
Definition status_is (label : stripe_subscription_status)
           (s : option stripe_subscription_status) : sql_bool :=
  option_map (stripe_status_eqb label) s.

(** [v_trial_info.trial_status = 'active' AND v_trial_info.trial_end_date > now()] *)
Definition trial_running (now : timestamptz) (v_trial_info : option user_trial) : sql_bool :=
  sql_and (option_map (fun t => trial_status_eqb (ut_trial_status t) T_active) v_trial_info)
          (sql_gt (option_map trial_end_date v_trial_info) (Some now)).

(** The [IF .. ELSIF .. ELSE] chain of [sync_user_state]:
    [(v_new_status, v_has_access, v_access_level)]. *)
Definition classify (now : timestamptz) (status : option stripe_subscription_status)
           (v_trial_info : option user_trial)
  : user_account_status * bool * text :=
  if is_true (status_is S_active status) then (subscription_active, true, "pro")
  else if is_true (status_is S_trialing status) then (subscription_trialing, true, "pro")
  else if is_true (status_is S_past_due status) then (subscription_past_due, false, "suspended")
  else if is_true (status_is S_canceled status) then (subscription_canceled, false, "trial")
  else if is_true (trial_running now v_trial_info) then (trial_active, true, "trial")
  else (trial_expired, false, "suspended").

Record sync_report := {
  sr_user_id : uuid;
  sr_status : user_account_status;
  sr_has_access : bool;
  sr_access_level : text;
  sr_synced_at : timestamptz
}.

Definition set_account_state (now : timestamptz)
           (v_trial_info : option user_trial) (v_stripe_info : stripe_info)
           (v_axie_info : option axie_studio_account)
           (r : account_state) : account_state :=
  let '(v_new_status, v_has_access, v_access_level) :=
    classify now (si_status v_stripe_info) v_trial_info in
  {| uas_user_id := uas_user_id r;
     uas_account_status := v_new_status;
     uas_has_access := v_has_access;
     uas_access_level := v_access_level;
     uas_trial_start_date := uas_trial_start_date r;
     uas_trial_end_date := uas_trial_end_date r;
     uas_trial_days_remaining :=
       match v_trial_info with
       | Some t => days_remaining now (trial_end_date t)
       | None => 0
       end;
     uas_stripe_customer_id := si_customer_id v_stripe_info;
     uas_stripe_subscription_id := si_subscription_id v_stripe_info;
     uas_subscription_status := option_map status_text (si_status v_stripe_info);
     uas_current_period_end :=
       option_map (fun seconds => seconds * 1000000)
                  (si_current_period_end v_stripe_info);
     uas_axie_studio_user_id := option_map asa_axie_studio_user_id v_axie_info;
     uas_axie_studio_status :=
       match v_axie_info with Some a => asa_account_status a | None => None end;
     uas_created_at := uas_created_at r;
     uas_updated_at := Some now;
     uas_last_activity_at := Some now;
     uas_notes := uas_notes r;
     uas_admin_flags := uas_admin_flags r |}.

Definition sync_user_state (now : timestamptz) (p_user_id : uuid) (db : database)
  : database * sync_report :=
  let v_trial_info :=
    first_row (filter (fun t => N.eqb (ut_user_id t) p_user_id) (user_trials db)) in
  let v_stripe_info := get_stripe_info p_user_id db in
  let v_axie_info :=
    first_row (filter (fun a => N.eqb (asa_user_id a) p_user_id)
                      (axie_studio_accounts db)) in
  let '(v_new_status, v_has_access, v_access_level) :=
    classify now (si_status v_stripe_info) v_trial_info in
  (with_user_account_state db
     (update (fun r => N.eqb (uas_user_id r) p_user_id)
             (set_account_state now v_trial_info v_stripe_info v_axie_info)
             (user_account_state db)),
   {| sr_user_id := p_user_id;
      sr_status := v_new_status;
      sr_has_access := v_has_access;
      sr_access_level := v_access_level;
      sr_synced_at := now |}).

(** ** on_subscription_change of this script: it converts the trial itself
    when the written row [NEW] is active or trialing. *)
Definition on_subscription_change (now : timestamptz) (NEW : stripe_subscription)
           (db : database) : outcome database :=
  if in_active_trialing (ss_status NEW) then
    match filter (fun c => String.eqb (sc_customer_id c) (ss_customer_id NEW)
                           && is_null (sc_deleted_at c))
                 (stripe_customers db) with
    | [] => Done db
    | [c] => Done (with_user_trials db
                     (update (fun t => N.eqb (ut_user_id t) (sc_user_id c))
                             (set_converted now)
                             (user_trials db)))
    | _ => Raised cardinality_violation
    end
  else Done db.

(** ** get_user_access_level of this script: the access decision computed
    from the trial and billing rows at [now]. *)

Record access_report := {
  ar_has_access : bool;
  ar_access_type : text;
  ar_subscription_status : text;
  ar_trial_status : text;
  ar_days_remaining : Z
}.

(** [user_trials ut LEFT JOIN stripe_customers c ON ut.user_id = c.user_id
    AND c.deleted_at IS NULL LEFT JOIN stripe_subscriptions s ON
    c.customer_id = s.customer_id AND s.deleted_at IS NULL] *)
Definition access_rows (db : database)
  : list (user_trial * option stripe_customer * option stripe_subscription) :=
  left_join
    (fun r s =>
       match snd r with
       | Some c => String.eqb (sc_customer_id c) (ss_customer_id s)
                   && is_null (ss_deleted_at s)
       | None => false
       end)
    (left_join (fun ut c => N.eqb (ut_user_id ut) (sc_user_id c)
                            && is_null (sc_deleted_at c))
               (user_trials db) (stripe_customers db))
    (stripe_subscriptions db).

Definition get_user_access_level (now : timestamptz) (p_user_id : uuid) (db : database)
  : list access_report :=
  map (fun r =>
         let '(ut, _, s) := r in
         let status := option_map ss_status s in
         let on_trial := trial_status_eqb (ut_trial_status ut) T_active
                         && (now <? trial_end_date ut) in
         {| ar_has_access :=
              if is_true (sql_in_active_trialing status) then true
              else if on_trial then true
              else false;
            ar_access_type :=
              if is_true (status_is S_active status) then "paid_subscription"
              else if is_true (status_is S_trialing status) then "stripe_trial"
              else if on_trial then "free_trial"
              else "no_access";
            ar_subscription_status :=
              match s with Some x => status_text (ss_status x) | None => "none" end;
            ar_trial_status := trial_status_text (ut_trial_status ut);
            ar_days_remaining := days_remaining now (trial_end_date ut) |})
      (filter (fun r => let '(ut, _, _) := r in N.eqb (ut_user_id ut) p_user_id)
              (access_rows db)).

(** ** verify_user_protection of this script *)

Record protection_report := {
  pr_user_id : uuid;
  pr_email : text;
  is_protected : bool;
  protection_reason : text;
  pr_trial_status : option text;
  pr_subscription_status : text
}.

(** [auth.users au LEFT JOIN user_trials ut .. LEFT JOIN stripe_customers c ON
    au.id = c.user_id AND c.deleted_at IS NULL LEFT JOIN stripe_subscriptions
    s ON c.customer_id = s.customer_id AND s.deleted_at IS NULL] *)
Definition protection_rows (db : database)
  : list (auth_user * option user_trial * option stripe_customer
          * option stripe_subscription) :=
  left_join
    (fun r s =>
       match snd r with
       | Some c => String.eqb (sc_customer_id c) (ss_customer_id s)
                   && is_null (ss_deleted_at s)
       | None => false
       end)
    (left_join (fun r c => N.eqb (au_id (fst r)) (sc_user_id c)
                           && is_null (sc_deleted_at c))
               (left_join (fun u ut => N.eqb (au_id u) (ut_user_id ut))
                          (auth_users db) (user_trials db))
               (stripe_customers db))
    (stripe_subscriptions db).

Definition verify_user_protection (p_user_id : uuid) (db : database)
  : list protection_report :=
  map (fun r =>
         let '(au, ut, _, s) := r in
         let status := option_map ss_status s in
         let converted :=
           is_true (option_map (fun t => trial_status_eqb (ut_trial_status t)
                                                          T_converted_to_paid) ut) in
         {| pr_user_id := au_id au;
            pr_email := au_email au;
            is_protected :=
              if is_true (sql_in_active_trialing status) then true
              else if converted then true
              else false;
            protection_reason :=
              if is_true (status_is S_active status) then "Active paid subscription"
              else if is_true (status_is S_trialing status) then "Stripe trial period"
              else if converted then "Previously converted to paid"
              else "No protection - eligible for deletion";
            pr_trial_status :=
              option_map (fun t => trial_status_text (ut_trial_status t)) ut;
            pr_subscription_status :=
              match s with Some x => status_text (ss_status x) | None => "none" end |})
      (filter (fun r => let '(au, _, _, _) := r in N.eqb (au_id au) p_user_id)
              (protection_rows db)).

End Complete.

(** * The trial state machine, as the design states it *)

(** The moves of [trial_status] the design allows in one step. *)
Inductive trial_transition : trial_status -> trial_status -> Prop :=
| stays s : trial_transition s s
| expires : trial_transition T_active T_expired
| gets_scheduled : trial_transition T_expired T_scheduled_for_deletion
| converts s : s <> T_converted_to_paid -> trial_transition s T_converted_to_paid.

(** One row before and after an operation run at [now]: the status moves
    along [trial_transition]; [deletion_scheduled_at] keeps its value, or
    receives [now + 1 day] as the row goes from active to expired, or is
    null on a row that is converted; and a row that becomes converted has
    it null. *)
Definition lawful_step (now : timestamptz) (t t' : user_trial) : Prop :=
  ut_user_id t' = ut_user_id t
  /\ trial_end_date t' = trial_end_date t
  /\ trial_transition (ut_trial_status t) (ut_trial_status t')
  /\ (deletion_scheduled_at t' = deletion_scheduled_at t
      \/ (ut_trial_status t = T_active /\ ut_trial_status t' = T_expired
          /\ deletion_scheduled_at t' = Some (now + interval_1_day))
      \/ (ut_trial_status t' = T_converted_to_paid /\ deletion_scheduled_at t' = None))
  /\ (ut_trial_status t <> T_converted_to_paid ->
      ut_trial_status t' = T_converted_to_paid ->
      deletion_scheduled_at t' = None).

(** The grace period on one row, before and after a trial pass at [now],
    [customers] and [subscriptions] being the billing tables of the pass:
    an active row past its end date, of a user that is neither the super
    admin nor paying, is expired and due one day from [now]; a row is newly
    scheduled for deletion only from expired with a deletion date before
    [now]; an active row is not scheduled. *)
Definition grace_step (now : timestamptz) (customers : list stripe_customer)
           (subscriptions : list stripe_subscription) (t t' : user_trial) : Prop :=
  (ut_user_id t <> super_admin_id ->
   ~ holds_live_subscription customers subscriptions (ut_user_id t) ->
   ut_trial_status t = T_active ->
   trial_end_date t < now ->
   ut_trial_status t' = T_expired
   /\ deletion_scheduled_at t' = Some (now + interval_1_day))
  /\ (ut_trial_status t' = T_scheduled_for_deletion ->
      ut_trial_status t <> T_scheduled_for_deletion ->
      ut_trial_status t = T_expired
      /\ exists d, deletion_scheduled_at t = Some d /\ d < now)
  /\ (ut_trial_status t = T_active ->
      ut_trial_status t' <> T_scheduled_for_deletion).

(** The operations of the final script that take and give a database. *)
Inductive operation :=
| op_protect_paying_customers
| op_sync_subscription_status
| op_check_expired_trials
| op_mark_trial_converted (p_user_id : uuid)
| op_sync_user_state (p_user_id : uuid)
| op_on_subscription_change (NEW : stripe_subscription)
| op_reconcile (p_user_id : uuid).

Definition run (now : timestamptz) (op : operation) (db : Final.database)
  : outcome Final.database :=
  match op with
  | op_protect_paying_customers => Done (Final.protect_paying_customers now db)
  | op_sync_subscription_status => Done (Final.sync_subscription_status now db)
  | op_check_expired_trials => Done (Final.check_expired_trials now db)
  | op_mark_trial_converted u => Done (Final.mark_trial_converted now u db)
  | op_sync_user_state u =>
      match Final.sync_user_state now u db with
      | Done (db', _) => Done db'
      | Raised e => Raised e
      end
  | op_on_subscription_change NEW => Final.on_subscription_change now NEW db
  | op_reconcile u =>
      match Final.reconcile now u db with
      | Done (db', _) => Done db'
      | Raised e => Raised e
      end
  end.

(** The database a call leaves behind: the one it returns, or, when it
    raises, the one it was given (the error rolls its writes back). *)
Definition committed (db : Final.database) (result : outcome Final.database)
  : Final.database :=
  match result with
  | Done db' => db'
  | Raised _ => db
  end.

(** The tables of the final script other than [user_account_state]. *)
Definition same_sources (db db' : Final.database) : Prop :=
  Final.auth_users db' = Final.auth_users db
  /\ Final.user_trials db' = Final.user_trials db
  /\ Final.stripe_customers db' = Final.stripe_customers db
  /\ Final.stripe_subscriptions db' = Final.stripe_subscriptions db
  /\ Final.axie_studio_accounts db' = Final.axie_studio_accounts db.

(** The billing condition of the protection guard: a customer row of the
    user with a subscription row that is active or trialing and not
    soft-deleted. *)
Definition subscribed (db : Final.database) (u : uuid) : Prop :=
  exists c s,
    In c (Final.stripe_customers db) /\ sc_user_id c = u
    /\ In s (Final.stripe_subscriptions db)
    /\ sc_customer_id c = ss_customer_id s
    /\ (ss_status s = S_active \/ ss_status s = S_trialing)
    /\ ss_deleted_at s = None.

(** [UNIQUE(user_id)] of [stripe_customers], for one user. *)
Definition one_customer_row (db : Final.database) (u : uuid) : Prop :=
  forall c1 c2,
    In c1 (Final.stripe_customers db) -> In c2 (Final.stripe_customers db) ->
    sc_user_id c1 = u -> sc_user_id c2 = u -> c1 = c2.

(** * Sample rows, for the runs the properties are tried on *)

Definition day (n : Z) : timestamptz := n * interval_1_day.

Definition trial_row (u : uuid) (end_day : Z) (s : trial_status)
           (deletion : option timestamptz) : user_trial :=
  {| ut_user_id := u;
     trial_start_date := day (end_day - 7);
     trial_end_date := day end_day;
     ut_trial_status := s;
     deletion_scheduled_at := deletion;
     ut_updated_at := day (end_day - 7) |}.

Definition customer_row (u : uuid) (customer : text) : stripe_customer :=
  {| sc_user_id := u; sc_customer_id := customer; sc_deleted_at := None |}.

Definition subscription_row (customer : text) (s : stripe_subscription_status)
           (created : Z) : stripe_subscription :=
  {| ss_customer_id := customer;
     ss_subscription_id := Some ("sub_" ++ customer)%string;
     ss_status := s;
     ss_current_period_end := None;
     ss_created_at := Some (day created);
     ss_deleted_at := None |}.

Definition user_row (u : uuid) (email : text) : auth_user :=
  {| au_id := u; au_email := email |}.

(** Two users whose trials ended on day 7 and are scheduled for deletion;
    the second one has paid in the meantime. *)
Definition sweep_db : Final.database :=
  {| Final.auth_users := [user_row 7%N "late@example.org"; user_row 8%N "paid@example.org"];
     Final.user_account_state := [];
     Final.user_trials :=
       [trial_row 7%N 7 T_scheduled_for_deletion (Some (day 8));
        trial_row 8%N 7 T_scheduled_for_deletion (Some (day 8))];
     Final.stripe_customers := [customer_row 8%N "cus_8"];
     Final.stripe_subscriptions := [subscription_row "cus_8" S_active 9];
     Final.axie_studio_accounts := [] |}.

Definition state_row (u : uuid) (email : text) (level : Final.access_level)
           (access : bool) : Final.account_state :=
  {| Final.uas_user_id := u;
     Final.uas_email := email;
     Final.uas_full_name := None;
     Final.uas_account_status := Final.A_trial;
     Final.uas_access_level := level;
     Final.uas_has_access := access;
     Final.uas_trial_days_remaining := 7;
     Final.uas_stripe_customer_id := None;
     Final.uas_stripe_subscription_id := None;
     Final.uas_stripe_status := None;
     Final.uas_current_period_end := None;
     Final.uas_axie_studio_user_id := None;
     Final.uas_axie_studio_status := Some "pending";
     Final.uas_created_at := Some (day 0);
     Final.uas_updated_at := Some (day 0) |}.

(** A user whose trial ended on day 7 and was scheduled for deletion, and
    who then pays: the active subscription row written on day 9. *)
Definition paid_subscription : stripe_subscription :=
  subscription_row "cus_8" S_active 9.

Definition rescue_db : Final.database :=
  {| Final.auth_users := [user_row 8%N "paid@example.org"];
     Final.user_account_state := [state_row 8%N "paid@example.org" Final.L_none false];
     Final.user_trials := [trial_row 8%N 7 T_scheduled_for_deletion (Some (day 8))];
     Final.stripe_customers := [customer_row 8%N "cus_8"];
     Final.stripe_subscriptions := [paid_subscription];
     Final.axie_studio_accounts := [] |}.

(** The same user in a database of the earlier script. *)
Definition complete_state_row (u : uuid) : Complete.account_state :=
  {| Complete.uas_user_id := u;
     Complete.uas_account_status := Complete.trial_expired;
     Complete.uas_has_access := false;
     Complete.uas_access_level := "suspended";
     Complete.uas_trial_start_date := Some (day 0);
     Complete.uas_trial_end_date := Some (day 7);
     Complete.uas_trial_days_remaining := 0;
     Complete.uas_stripe_customer_id := None;
     Complete.uas_stripe_subscription_id := None;
     Complete.uas_subscription_status := None;
     Complete.uas_current_period_end := None;
     Complete.uas_axie_studio_user_id := None;
     Complete.uas_axie_studio_status := Some "active";
     Complete.uas_created_at := Some (day 0);
     Complete.uas_updated_at := Some (day 0);
     Complete.uas_last_activity_at := Some (day 0);
     Complete.uas_notes := None;
     Complete.uas_admin_flags := None |}.

Definition complete_rescue_db : Complete.database :=
  {| Complete.auth_users := [user_row 8%N "paid@example.org"];
     Complete.user_account_state := [complete_state_row 8%N];
     Complete.user_trials := [trial_row 8%N 7 T_scheduled_for_deletion (Some (day 8))];
     Complete.stripe_customers := [customer_row 8%N "cus_8"];
     Complete.stripe_subscriptions := [paid_subscription];
     Complete.axie_studio_accounts := [] |}.

(** A user of the earlier script's database whose trial runs until day 12
    and whose subscription has the given status. *)
Definition classifier_db (status : stripe_subscription_status) : Complete.database :=
  {| Complete.auth_users := [user_row 9%N "trial@example.org"];
     Complete.user_account_state := [complete_state_row 9%N];
     Complete.user_trials := [trial_row 9%N 12 T_active None];
     Complete.stripe_customers := [customer_row 9%N "cus_9"];
     Complete.stripe_subscriptions := [subscription_row "cus_9" status 3];
     Complete.axie_studio_accounts := [] |}.

(** [v_trial_info] of [sync_user_state]. *)
Definition trial_info (p_user_id : uuid) (db : Complete.database) : option user_trial :=
  first_row (filter (fun t => N.eqb (ut_user_id t) p_user_id) (Complete.user_trials db)).

(** The trial evaluation, in words: the user has a trial row (the first
    one counts) that is active and ends after [now]. *)
Definition trial_still_running (now : timestamptz) (trial : option user_trial) : Prop :=
  exists t, trial = Some t /\ ut_trial_status t = T_active /\ now < trial_end_date t.

(** A new user without billing whose trial ends on day 7. *)
Definition trial_user_db : Final.database :=
  {| Final.auth_users := [user_row 7%N "late@example.org"];
     Final.user_account_state := [state_row 7%N "late@example.org" Final.L_trial true];
     Final.user_trials := [trial_row 7%N 7 T_active None];
     Final.stripe_customers := [];
     Final.stripe_subscriptions := [];
     Final.axie_studio_accounts := [] |}.

Definition second : Z := 1000000.

(** The super admin in a database of the earlier script, its trial
    scheduled for deletion. *)
Definition complete_admin_db : Complete.database :=
  {| Complete.auth_users := [user_row super_admin_id "admin@example.org"];
     Complete.user_account_state := [complete_state_row super_admin_id];
     Complete.user_trials :=
       [trial_row super_admin_id 7 T_scheduled_for_deletion (Some (day 8))];
     Complete.stripe_customers := [];
     Complete.stripe_subscriptions := [];
     Complete.axie_studio_accounts := [] |}.

(** * Histories of operations *)

(** What happens to a database of the final script over time: calls of its
    operations, each in its own transaction with its own timestamp, and
    writes of the payment webhook, which replaces rows of the two billing
    tables (any new contents are allowed for).  A call that raises is
    rolled back and leaves the database as it found it. *)
Inductive event :=
| called (now : timestamptz) (op : operation)
| billing_written (customers : list stripe_customer)
                  (subscriptions : list stripe_subscription).

Definition with_billing (db : Final.database) (customers : list stripe_customer)
           (subscriptions : list stripe_subscription) : Final.database :=
  {| Final.auth_users := Final.auth_users db;
     Final.user_account_state := Final.user_account_state db;
     Final.user_trials := Final.user_trials db;
     Final.stripe_customers := customers;
     Final.stripe_subscriptions := subscriptions;
     Final.axie_studio_accounts := Final.axie_studio_accounts db |}.

Fixpoint run_all (history : list event) (db : Final.database) : Final.database :=
  match history with
  | [] => db
  | called now op :: rest =>
      match run now op db with
      | Done db' => run_all rest db'
      | Raised _ => run_all rest db
      end
  | billing_written customers subscriptions :: rest =>
      run_all rest (with_billing db customers subscriptions)
  end.

(** [UNIQUE(user_id)] of [user_trials], for one user. *)
Definition one_trial_row (trials : list user_trial) (u : uuid) : Prop :=
  forall t1 t2, In t1 trials -> In t2 trials ->
                ut_user_id t1 = u -> ut_user_id t2 = u -> t1 = t2.

(** [t] is the one trial row of the user, [c] the one customer row, [s] the
    one subscription row of customer [c]: what the [UNIQUE] keys of the
    tables and the data model's single linkage give. *)
Definition only_trial_row (trials : list user_trial) (u : uuid) (t : user_trial) : Prop :=
  filter (fun t => N.eqb (ut_user_id t) u) trials = [t].

Definition only_customer_row (customers : list stripe_customer) (u : uuid)
           (c : stripe_customer) : Prop :=
  filter (fun c => N.eqb (sc_user_id c) u) customers = [c].

Definition only_subscription_row (subscriptions : list stripe_subscription)
           (c : stripe_customer) (s : stripe_subscription) : Prop :=
  filter (fun s => String.eqb (ss_customer_id s) (sc_customer_id c)) subscriptions = [s].

(** * The React hooks and the component that read the views *)

Module Hooks.

(** [TrialInfo]: a row of the view [user_trial_info] as [useTrialStatus]
    receives it.  Both scripts compute [days_remaining] with the same
    expression; the columns only one of them has ([seconds_remaining],
    [email], [is_expired]) are read by no flag and are left out. *)
Record TrialInfo := {
  ti_user_id : uuid;
  ti_trial_start_date : timestamptz;
  ti_trial_end_date : timestamptz;
  ti_trial_status : trial_status;
  ti_deletion_scheduled_at : option timestamptz;
  ti_days_remaining : Z
}.

(** The view [user_trial_info] on one row of [user_trials], read at [now]. *)
Definition user_trial_info (now : timestamptz) (ut : user_trial) : TrialInfo :=
  {| ti_user_id := ut_user_id ut;
     ti_trial_start_date := trial_start_date ut;
     ti_trial_end_date := trial_end_date ut;
     ti_trial_status := ut_trial_status ut;
     ti_deletion_scheduled_at := deletion_scheduled_at ut;
     ti_days_remaining := days_remaining now (trial_end_date ut) |}.

(** The flags of [useTrialStatus]; [trialInfo?.x] is undefined on null and
    then equals no label and is not above 0. *)
Definition isTrialActive (trialInfo : option TrialInfo) : bool :=
  match trialInfo with
  | Some i => trial_status_eqb (ti_trial_status i) T_active && (0 <? ti_days_remaining i)
  | None => false
  end.

Definition isTrialExpired (trialInfo : option TrialInfo) : bool :=
  match trialInfo with
  | Some i => trial_status_eqb (ti_trial_status i) T_expired
              || ((ti_days_remaining i =? 0)
                  && trial_status_eqb (ti_trial_status i) T_active)
  | None => false
  end.

Definition isScheduledForDeletion (trialInfo : option TrialInfo) : bool :=
  match trialInfo with
  | Some i => trial_status_eqb (ti_trial_status i) T_scheduled_for_deletion
  | None => false
  end.

Definition hasConvertedToPaid (trialInfo : option TrialInfo) : bool :=
  match trialInfo with
  | Some i => trial_status_eqb (ti_trial_status i) T_converted_to_paid
  | None => false
  end.

(** What the component [TrialStatus] shows once loading is over; [None] is
    its [return null]. *)
Inductive banner :=
| PREMIUM_ACTIVE
| ACCOUNT_DELETION_SCHEDULED
| TRIAL_EXPIRED
| TRIAL_ENDING_SOON
| FREE_TRIAL_ACTIVE.

Definition TrialStatus (trialInfo : option TrialInfo) (hasActiveSubscription : bool)
  : option banner :=
  match trialInfo with
  | None => None
  | Some i =>
      if hasActiveSubscription then Some PREMIUM_ACTIVE
      else if isScheduledForDeletion trialInfo then Some ACCOUNT_DELETION_SCHEDULED
      else if isTrialExpired trialInfo then Some TRIAL_EXPIRED
      else if isTrialActive trialInfo then
             let isUrgent := ti_days_remaining i <=? 1 in
             if isUrgent then Some TRIAL_ENDING_SOON else Some FREE_TRIAL_ACTIVE
      else None
  end.

(** [useUserAccess], on the row of the final script's view [user_dashboard]:
    the columns of [user_account_state] and of [user_trials], null when the
    outer join finds no row.  The fields the flags read. *)
Record UserAccessStatus := {
  uas_trial_status : option trial_status;
  uas_has_access : option bool;
  uas_access_type : text;
  uas_days_remaining : option Z
}.



Definition isPaidUser (accessStatus : option UserAccessStatus) : bool :=
  match accessStatus with
  | Some a => String.eqb (uas_access_type a) "paid_subscription"
  | None => false
  end.

Definition isTrialing (accessStatus : option UserAccessStatus) : bool :=
  match accessStatus with
  | Some a => String.eqb (uas_access_type a) "stripe_trial"
  | None => false
  end.


Definition isProtected (accessStatus : option UserAccessStatus) : bool :=
  isPaidUser accessStatus || isTrialing accessStatus
  || match accessStatus with
     | Some a => is_true (option_map (fun s => trial_status_eqb s T_converted_to_paid)
                                     (uas_trial_status a))
     | None => false
     end.

End Hooks.

(** * More sample rows *)

(** A user whose trial was converted while the subscription was active. *)
Definition converted_db : Final.database :=
  {| Final.auth_users := [user_row 8%N "paid@example.org"];
     Final.user_account_state := [state_row 8%N "paid@example.org" Final.L_pro true];
     Final.user_trials := [trial_row 8%N 7 T_converted_to_paid None];
     Final.stripe_customers := [customer_row 8%N "cus_8"];
     Final.stripe_subscriptions := [paid_subscription];
     Final.axie_studio_accounts := [] |}.

(** The subscription is canceled on day 20; the trial pass runs on day 21
    and a reconciliation of the user on day 30. *)
Definition cancellation : list event :=
  [billing_written [customer_row 8%N "cus_8"] [subscription_row "cus_8" S_canceled 9];
   called (day 21) op_check_expired_trials;
   called (day 30) (op_reconcile 8%N)].

(** A new user: the row of [auth.users] is there, nothing else yet. *)
Definition fresh_store : Final.store :=
  {| Final.tables :=
       {| Final.auth_users := [user_row 7%N "late@example.org"];
          Final.user_account_state := [];
          Final.user_trials := [];
          Final.stripe_customers := [];
          Final.stripe_subscriptions := [];
          Final.axie_studio_accounts := [] |};
     Final.user_profiles := [] |}.

(** A user who registers with an address that the derived state still
    holds for another user. *)
Definition taken_email_store : Final.store :=
  {| Final.tables :=
       {| Final.auth_users := [user_row 9%N "new@example.org"; user_row 7%N "late@example.org"];
          Final.user_account_state := [state_row 9%N "late@example.org" Final.L_trial true];
          Final.user_trials := [trial_row 9%N 7 T_active None];
          Final.stripe_customers := [];
          Final.stripe_subscriptions := [];
          Final.axie_studio_accounts := [] |};
     Final.user_profiles := [] |}.

(** The two users of [sweep_db] in a database of the earlier script. *)
Definition complete_sweep_db : Complete.database :=
  {| Complete.auth_users := [user_row 7%N "late@example.org"; user_row 8%N "paid@example.org"];
     Complete.user_account_state := [];
     Complete.user_trials :=
       [trial_row 7%N 7 T_scheduled_for_deletion (Some (day 8));
        trial_row 8%N 7 T_scheduled_for_deletion (Some (day 8))];
     Complete.stripe_customers := [customer_row 8%N "cus_8"];
     Complete.stripe_subscriptions := [subscription_row "cus_8" S_active 9];
     Complete.axie_studio_accounts := [] |}.

(** A user whose customer row was soft-deleted on day 9 while the
    subscription row stayed active. *)
Definition soft_deleted_customer_db : Final.database :=
  {| Final.auth_users := [user_row 8%N "paid@example.org"];
     Final.user_account_state := [state_row 8%N "paid@example.org" Final.L_none false];
     Final.user_trials := [trial_row 8%N 7 T_scheduled_for_deletion (Some (day 8))];
     Final.stripe_customers :=
       [{| sc_user_id := 8%N; sc_customer_id := "cus_8"; sc_deleted_at := Some (day 9) |}];
     Final.stripe_subscriptions := [paid_subscription];
     Final.axie_studio_accounts := [] |}.


(** A user of the earlier script whose trial was converted and who has no
    billing row left. *)
Definition complete_converted_db : Complete.database :=
  {| Complete.auth_users := [user_row 8%N "paid@example.org"];
     Complete.user_account_state := [complete_state_row 8%N];
     Complete.user_trials := [trial_row 8%N 7 T_converted_to_paid None];
     Complete.stripe_customers := [];
     Complete.stripe_subscriptions := [];
     Complete.axie_studio_accounts := [] |}.

(** A trial left unpaid: the trial pass runs on day 8 and on day 10, then
    the derived state is synchronised. *)
Definition expiry : list event :=
  [called (day 8) op_check_expired_trials;
   called (day 10) op_check_expired_trials;
   called (day 10) (op_sync_user_state 7%N)].

(** * Properties *)

(** ** Facts about the SQL operators *)

Lemma trial_status_eqb_eq a b : trial_status_eqb a b = true <-> a = b.
Proof. destruct a, b; simpl; split; intro H; (reflexivity || discriminate). Qed.


(** ** Facts about the relational operators *)

Lemma in_join {A B} (on : A -> B -> bool) l r a b :
  In (a, b) (join on l r) <-> In a l /\ In b r /\ on a b = true.
Proof.
  unfold join. rewrite in_flat_map. split.
  - intros (a' & Ha & Hin). apply in_map_iff in Hin.
    destruct Hin as (b' & Heq & Hb). inversion Heq; subst.
    apply filter_In in Hb. tauto.
  - intros (Ha & Hb & Hon). exists a. split; [assumption|].
    apply in_map. apply filter_In. tauto.
Qed.

Lemma uuid_in_spec x ids : uuid_in x ids = true <-> In x ids.
Proof.
  unfold uuid_in. rewrite existsb_exists. split.
  - intros (y & Hy & He). apply N.eqb_eq in He. now subst.
  - intro H. exists x. split; [assumption | apply N.eqb_refl].
Qed.

Lemma in_active_trialing_spec s :
  in_active_trialing s = true <-> s = S_active \/ s = S_trialing.
Proof.
  destruct s; simpl; split; intro H;
    try discriminate; try (destruct H; discriminate); auto.
Qed.

Lemma is_null_spec {A} (x : option A) : is_null x = true <-> x = None.
Proof. destruct x; simpl; split; intro; (reflexivity || discriminate). Qed.

Lemma paying_user_ids_spec customers subscriptions u :
  In u (paying_user_ids customers subscriptions)
  <-> holds_live_subscription customers subscriptions u.
Proof.
  unfold paying_user_ids, holds_live_subscription.
  rewrite in_map_iff. split.
  - intros ([c s] & Hu & Hin). simpl in Hu.
    apply filter_In in Hin. destruct Hin as (Hj & Hc). simpl in Hc.
    apply in_join in Hj. destruct Hj as (Hc1 & Hs1 & Hon).
    apply andb_prop in Hc. destruct Hc as (Hc & Hcd).
    apply andb_prop in Hc. destruct Hc as (Hst & Hsd).
    exists c, s. repeat split; try assumption.
    + now apply String.eqb_eq.
    + now apply in_active_trialing_spec.
    + now apply is_null_spec.
    + now apply is_null_spec.
  - intros (c & s & Hc & Hs & Hu & Hid & Hst & Hsd & Hcd).
    exists (c, s). split; [assumption|].
    apply filter_In. split.
    + apply in_join. repeat split; try assumption. now apply String.eqb_eq.
    + simpl. rewrite Hsd, Hcd.
      apply in_active_trialing_spec in Hst. now rewrite Hst.
Qed.

Lemma in_update {A} (cond : A -> bool) (set : A -> A) (t : list A) (r' : A) :
  In r' (update cond set t) <-> exists r, In r t /\ r' = update_row cond set r.
Proof.
  unfold update. rewrite in_map_iff. split.
  - intros (r & Hr & Hin). exists r. split; [assumption | now symmetry].
  - intros (r & Hin & Hr). exists r. split; [now symmetry | assumption].
Qed.

(** ** The deletion sweeper *)

(** C1, as the code has it. Every candidate that [get_users_for_deletion]
    returns, in the final script and in the earlier one, comes from a
    trial row that is scheduled for deletion and whose end date lies more
    than one day before [now], and its user holds no active or trialing
    subscription of which neither the subscription row nor the customer
    row is soft-deleted.  In the final script the candidate is not the
    super admin either. *)
Theorem sweeper_selects_only_due_users (now : timestamptz) (db : Final.database)
        (cdb : Complete.database) :
  (forall r, In r (Final.get_users_for_deletion now db) ->
     (exists t, In t (Final.user_trials db)
                /\ ut_user_id t = Final.dc_user_id r
                /\ trial_end_date t = Final.dc_trial_end_date r
                /\ ut_trial_status t = T_scheduled_for_deletion
                /\ trial_end_date t < now - interval_1_day)
     /\ ~ holds_live_subscription (Final.stripe_customers db)
                                  (Final.stripe_subscriptions db) (Final.dc_user_id r)
     /\ Final.dc_user_id r <> super_admin_id)
  /\ (forall u email trial_end,
        In (u, email, trial_end) (Complete.get_users_for_deletion now cdb) ->
        (exists t, In t (Complete.user_trials cdb)
                   /\ ut_user_id t = u
                   /\ trial_end_date t = trial_end
                   /\ ut_trial_status t = T_scheduled_for_deletion
                   /\ trial_end_date t < now - interval_1_day)
        /\ ~ holds_live_subscription (Complete.stripe_customers cdb)
                                     (Complete.stripe_subscriptions cdb) u).
Proof.
  split.
  - unfold Final.get_users_for_deletion. intros r Hin.
    apply in_map_iff in Hin. destruct Hin as ([t u] & Hr & Hin).
    apply filter_In in Hin. destruct Hin as (Hj & Hc). simpl in Hc.
    apply in_join in Hj. destruct Hj as (Ht & _ & _).
    repeat (apply andb_prop in Hc; let H := fresh "Hc" in destruct Hc as (Hc & H)).
    subst r. simpl. split; [| split].
    + exists t. repeat split; try assumption.
      * now apply trial_status_eqb_eq.
      * now apply Z.ltb_lt.
    + intro Hpay. apply paying_user_ids_spec in Hpay.
      apply uuid_in_spec in Hpay. unfold Final.paying in Hc1.
      rewrite Hpay in Hc1. discriminate.
    + intro Heq. rewrite Heq in Hc2. discriminate.
  - unfold Complete.get_users_for_deletion. intros u email trial_end Hin.
    apply in_map_iff in Hin. destruct Hin as ([t au] & Hr & Hin).
    apply filter_In in Hin. destruct Hin as (Hj & Hc). simpl in Hc.
    apply in_join in Hj. destruct Hj as (Ht & _ & _).
    repeat (apply andb_prop in Hc; let H := fresh "Hc" in destruct Hc as (Hc & H)).
    simpl in Hr. inversion Hr. subst. split.
    + exists t. repeat split; try assumption.
      * now apply trial_status_eqb_eq.
      * now apply Z.ltb_lt.
    + intro Hpay. apply paying_user_ids_spec in Hpay.
      apply uuid_in_spec in Hpay. unfold Complete.paying in Hc1.
      rewrite Hpay in Hc1. discriminate.
Qed.

Lemma get_users_for_deletion_sweep :
  Final.get_users_for_deletion (day 10) sweep_db
  = [{| Final.dc_user_id := 7%N;
        Final.dc_email := "late@example.org";
        Final.dc_trial_end_date := day 7 |}]
  /\ Complete.get_users_for_deletion (day 10) complete_sweep_db
     = [(7%N, "late@example.org", day 7)].
Proof. split; reflexivity. Qed.

(** C1 as stated fails twice.  In the final script user 8, whose customer
    row is soft-deleted, is listed although the subscription row of that
    customer is active and not soft-deleted.  In the earlier script the
    super admin is listed like any other user. *)
Lemma sweeper_lists_subscriber_and_admin :
  map Final.dc_user_id (Final.get_users_for_deletion (day 10) soft_deleted_customer_db)
  = [8%N]
  /\ map (fun c => (sc_user_id c, sc_customer_id c))
         (Final.stripe_customers soft_deleted_customer_db)
     = [(8%N, "cus_8")]
  /\ map (fun s => (ss_customer_id s, ss_status s, ss_deleted_at s))
         (Final.stripe_subscriptions soft_deleted_customer_db)
     = [("cus_8", S_active, None)]
  /\ map (fun r => fst (fst r))
         (Complete.get_users_for_deletion (day 10) complete_admin_db)
     = [super_admin_id].
Proof. repeat split. Qed.

(** ** The trial pass, row by row *)

Lemma Forall2_map_same {A} (R : A -> A -> Prop) (f : A -> A) (l : list A) :
  (forall x, In x l -> R x (f x)) -> Forall2 R l (map f l).
Proof.
  induction l as [|x l IH]; simpl; intro H; constructor.
  - apply H. now left.
  - apply IH. intros y Hy. apply H. now right.
Qed.

Lemma not_due_on_expiry now : (now + interval_1_day <? now) = false.
Proof. apply Z.ltb_ge. unfold interval_1_day. lia. Qed.

Lemma protect_paying_customers_rows now db :
  Final.user_trials (Final.protect_paying_customers now db)
  = map (update_row (Final.to_protect (Final.paying db)) (set_converted now))
        (Final.user_trials db).
Proof. reflexivity. Qed.

Lemma sync_subscription_status_rows now db :
  Final.user_trials (Final.sync_subscription_status now db)
  = map (Final.sync_pass now (Final.paying db)) (Final.user_trials db).
Proof.
  unfold Final.sync_subscription_status, Final.schedule_deletions,
    Final.expire_trials, Final.mark_converted, update. simpl.
  now rewrite !map_map.
Qed.

Lemma check_expired_trials_rows now db :
  Final.user_trials (Final.check_expired_trials now db)
  = map (Final.trial_pass now (Final.paying db)) (Final.user_trials db).
Proof.
  unfold Final.check_expired_trials. rewrite sync_subscription_status_rows.
  rewrite protect_paying_customers_rows, map_map. reflexivity.
Qed.

Lemma check_expired_trials_frame now db :
  Final.check_expired_trials now db
  = Final.with_user_trials db
      (map (Final.trial_pass now (Final.paying db)) (Final.user_trials db)).
Proof.
  rewrite <- check_expired_trials_rows. reflexivity.
Qed.

(** Case analysis of one row under the [UPDATE]s: on its status, on the
    tests of the [WHERE] clauses and on its deletion date.  The [UPDATE]s
    are then run innermost first, each on a row whose fields are known. *)
Ltac use_tests :=
  repeat match goal with
         | H : ?b = true |- context [?b] => rewrite H
         | H : ?b = false |- context [?b] => rewrite H
         end;
  rewrite ?not_due_on_expiry.

Ltac run_updates :=
  repeat match goal with
         | |- context [update_row ?c ?s (Build_user_trial ?u ?b ?e ?st ?d ?up)] =>
             let v := eval cbv beta iota zeta delta
                        [update_row Final.to_schedule Final.to_expire Final.to_convert
                         Final.to_protect Complete.to_schedule Complete.to_expire
                         Complete.to_convert Complete.to_protect
                         deletion_due set_scheduled set_expired
                         set_converted ut_user_id trial_start_date trial_end_date
                         ut_trial_status deletion_scheduled_at ut_updated_at
                         trial_status_eqb negb andb orb]
                      in (update_row c s (Build_user_trial u b e st d up)) in
             change (update_row c s (Build_user_trial u b e st d up)) with v;
             use_tests;
             cbv beta iota
         end.

Ltac trial_cases t pay now :=
  let u := fresh "u" in
  let e := fresh "e" in
  let st := fresh "st" in
  let d := fresh "d" in
  destruct t as [u ? e st d ?];
  destruct st;
  destruct (uuid_in u pay) eqn:?;
  destruct (N.eqb u super_admin_id) eqn:?;
  destruct (e <? now) eqn:?;
  (destruct d as [d|]; [destruct (d <? now) eqn:?|]);
  unfold Final.trial_pass, Final.sync_pass, Complete.trial_pass;
  run_updates;
  cbn [ut_user_id trial_start_date trial_end_date ut_trial_status
       deletion_scheduled_at ut_updated_at].

Lemma lawful_step_refl now t : lawful_step now t t.
Proof. unfold lawful_step. repeat split; auto using stays. intros H1 H2. now rewrite H2 in H1. Qed.

Ltac lawful :=
  unfold lawful_step;
  cbn [ut_user_id trial_start_date trial_end_date ut_trial_status
       deletion_scheduled_at ut_updated_at];
  repeat split;
  try solve [ reflexivity
            | constructor; discriminate
            | constructor
            | left; reflexivity
            | right; left; repeat split; reflexivity
            | right; right; split; reflexivity
            | intros; congruence ].

Lemma trial_pass_lawful now pay t : lawful_step now t (Final.trial_pass now pay t).
Proof. trial_cases t pay now; lawful. Qed.

Lemma sync_pass_lawful now pay t : lawful_step now t (Final.sync_pass now pay t).
Proof. trial_cases t pay now; lawful. Qed.

Lemma protect_row_lawful now pay t :
  lawful_step now t (update_row (Final.to_protect pay) (set_converted now) t).
Proof. trial_cases t pay now; lawful. Qed.

Lemma mark_trial_converted_row_lawful now p t :
  lawful_step now t
    (update_row (fun t => N.eqb (ut_user_id t) p) (set_converted now) t).
Proof.
  unfold update_row. destruct (N.eqb (ut_user_id t) p).
  - destruct t as [u b e st d up]. destruct st; lawful.
  - apply lawful_step_refl.
Qed.

(** A paying user's row leaves the pass converted. *)
Lemma trial_pass_paying now pay t :
  uuid_in (ut_user_id t) pay = true ->
  ut_trial_status (Final.trial_pass now pay t) = T_converted_to_paid.
Proof. trial_cases t pay now; intro; (reflexivity || congruence). Qed.

(** The super admin's row is neither expired nor scheduled by the pass. *)
Lemma trial_pass_super_admin now pay t :
  N.eqb (ut_user_id t) super_admin_id = true ->
  ut_trial_status (Final.trial_pass now pay t) = ut_trial_status t
  \/ ut_trial_status (Final.trial_pass now pay t) = T_converted_to_paid.
Proof. trial_cases t pay now; intro; try congruence; auto. Qed.

(** An active row past its end date, of a user that is neither the super
    admin nor paying, leaves the pass expired, due one day from [now]. *)
Lemma trial_pass_expires now pay t :
  N.eqb (ut_user_id t) super_admin_id = false ->
  uuid_in (ut_user_id t) pay = false ->
  ut_trial_status t = T_active ->
  (trial_end_date t <? now) = true ->
  ut_trial_status (Final.trial_pass now pay t) = T_expired
  /\ deletion_scheduled_at (Final.trial_pass now pay t) = Some (now + interval_1_day).
Proof. trial_cases t pay now; intros; try congruence; auto. Qed.

(** A row leaves the pass scheduled for deletion only if it entered it so,
    or entered it expired with a deletion date before [now]. *)
Lemma trial_pass_schedules now pay t :
  ut_trial_status (Final.trial_pass now pay t) = T_scheduled_for_deletion ->
  ut_trial_status t = T_scheduled_for_deletion
  \/ (ut_trial_status t = T_expired
      /\ exists d, deletion_scheduled_at t = Some d /\ d < now).
Proof.
  trial_cases t pay now; intros; try congruence; auto;
    right; split; auto; eexists; split; eauto; now apply Z.ltb_lt.
Qed.

Lemma trial_pass_idempotent now pay t :
  Final.trial_pass now pay (Final.trial_pass now pay t) = Final.trial_pass now pay t.
Proof. trial_cases t pay now; reflexivity. Qed.


Lemma trial_pass_end_date now pay t :
  trial_end_date (Final.trial_pass now pay t) = trial_end_date t.
Proof. apply trial_pass_lawful. Qed.

Lemma Forall2_same {A} (R : A -> A -> Prop) (l : list A) :
  (forall x, R x x) -> Forall2 R l l.
Proof. intro H. induction l; constructor; auto. Qed.

Lemma not_paying customers subscriptions u :
  ~ holds_live_subscription customers subscriptions u ->
  uuid_in u (paying_user_ids customers subscriptions) = false.
Proof.
  intro H. destruct (uuid_in u _) eqn:E; [|reflexivity].
  exfalso. apply H. apply paying_user_ids_spec. now apply uuid_in_spec.
Qed.

(** ** What sync_user_state leaves alone *)

(** The [UPDATE] of [sync_user_state] does not pass its analysis: the two
    [CASE]s over string literals are texts, and their columns are
    enumerated types.  Every call ends with that error. *)
Lemma final_sync_user_state_refused now p db :
  Final.sync_user_state now p db = Raised datatype_mismatch.
Proof. reflexivity. Qed.

Lemma final_reconcile_refused now p db :
  Final.reconcile now p db = Raised datatype_mismatch.
Proof. reflexivity. Qed.

(** The trigger of the final script raises whatever row fired it. *)
Lemma final_on_subscription_change_refused now NEW db :
  exists e, Final.on_subscription_change now NEW db = Raised e.
Proof.
  unfold Final.on_subscription_change.
  destruct (filter _ _) as [|c [|c' cs]].
  - eexists. reflexivity.
  - rewrite final_sync_user_state_refused. eauto.
  - eauto.
Qed.

Lemma same_sources_refl db : same_sources db db.
Proof. unfold same_sources. tauto. Qed.

(** A call of [sync_user_state] or of the trigger leaves the database it
    was given. *)
Lemma committed_sync_user_state now p db :
  committed db (run now (op_sync_user_state p) db) = db.
Proof. reflexivity. Qed.

Lemma committed_on_subscription_change now NEW db :
  committed db (Final.on_subscription_change now NEW db) = db.
Proof.
  destruct (final_on_subscription_change_refused now NEW db) as (e & H).
  now rewrite H.
Qed.

Lemma complete_sync_user_state_sources now p db :
  let db' := fst (Complete.sync_user_state now p db) in
  Complete.user_trials db' = Complete.user_trials db
  /\ Complete.stripe_customers db' = Complete.stripe_customers db
  /\ Complete.stripe_subscriptions db' = Complete.stripe_subscriptions db
  /\ Complete.axie_studio_accounts db' = Complete.axie_studio_accounts db.
Proof.
  unfold Complete.sync_user_state.
  destruct (Complete.classify _ _ _) as [[st ha] al]. simpl.
  repeat split; reflexivity.
Qed.

Lemma complete_sync_user_state_rows now p db :
  Forall2 (fun r r' => Complete.uas_user_id r' = Complete.uas_user_id r
                       /\ (Complete.uas_user_id r <> p -> r' = r))
          (Complete.user_account_state db)
          (Complete.user_account_state (fst (Complete.sync_user_state now p db))).
Proof.
  unfold Complete.sync_user_state.
  destruct (Complete.classify _ _ _) as [[st ha] al] eqn:Ec. simpl. unfold update.
  apply Forall2_map_same. intros r _. unfold update_row.
  destruct (N.eqb (Complete.uas_user_id r) p) eqn:E.
  - split.
    + unfold Complete.set_account_state.
      destruct (Complete.classify _ _ _) as [[st' ha'] al']. reflexivity.
    + apply N.eqb_eq in E. intro Hn. contradiction.
  - split; reflexivity.
Qed.

(** C10. [sync_user_state], in the final script and in the earlier one,
    changes no table but [user_account_state], and there no row of another
    user; so the reconciliation that the subscription trigger of the final
    script starts leaves [user_trials], hence every trial status and
    deletion date, as it was.  In the final script the call ends with an
    error and its database is the one it was given; in the earlier one it
    completes. *)
Theorem sync_user_state_writes_only_derived_state
        (now : timestamptz) (p_user_id : uuid) (NEW : stripe_subscription)
        (db : Final.database) (cdb : Complete.database) :
  (let db' := committed db (run now (op_sync_user_state p_user_id) db) in
   same_sources db db'
   /\ Forall2 (fun r r' => Final.uas_user_id r' = Final.uas_user_id r
                           /\ (Final.uas_user_id r <> p_user_id -> r' = r))
              (Final.user_account_state db) (Final.user_account_state db'))
  /\ (let cdb' := fst (Complete.sync_user_state now p_user_id cdb) in
      Complete.user_trials cdb' = Complete.user_trials cdb
      /\ Complete.stripe_customers cdb' = Complete.stripe_customers cdb
      /\ Complete.stripe_subscriptions cdb' = Complete.stripe_subscriptions cdb
      /\ Complete.axie_studio_accounts cdb' = Complete.axie_studio_accounts cdb
      /\ Forall2 (fun r r' => Complete.uas_user_id r' = Complete.uas_user_id r
                              /\ (Complete.uas_user_id r <> p_user_id -> r' = r))
                 (Complete.user_account_state cdb) (Complete.user_account_state cdb'))
  /\ (let db' := committed db (Final.on_subscription_change now NEW db) in
      Final.user_trials db' = Final.user_trials db).
Proof.
  split; [|split].
  - cbv zeta. rewrite committed_sync_user_state. split.
    + apply same_sources_refl.
    + apply Forall2_same. intro r. split; reflexivity.
  - pose proof (complete_sync_user_state_sources now p_user_id cdb) as Hs.
    pose proof (complete_sync_user_state_rows now p_user_id cdb) as Hr.
    simpl in *. tauto.
  - cbv zeta. now rewrite committed_on_subscription_change.
Qed.

(** ** The trial state machine *)

Lemma is_paying customers subscriptions u :
  holds_live_subscription customers subscriptions u ->
  uuid_in u (paying_user_ids customers subscriptions) = true.
Proof. intro H. apply uuid_in_spec. now apply paying_user_ids_spec. Qed.

(** C8. Whatever operation of the final script runs, every trial row moves
    along active -> expired -> scheduled_for_deletion or from one of these
    to converted_to_paid, or stays; a converted row stays converted;
    [deletion_scheduled_at] receives a value only as the row enters expired
    and is null on every row that becomes converted. *)
Theorem trial_status_moves_lawfully (now : timestamptz) (op : operation)
        (db db' : Final.database) :
  run now op db = Done db' ->
  Forall2 (lawful_step now) (Final.user_trials db) (Final.user_trials db')
  /\ Forall2 (fun t t' => ut_trial_status t = T_converted_to_paid ->
                          ut_trial_status t' = T_converted_to_paid)
             (Final.user_trials db) (Final.user_trials db').
Proof.
  intro H.
  assert (Hl : Forall2 (lawful_step now) (Final.user_trials db) (Final.user_trials db')).
  { destruct op; cbn [run] in H.
    - inversion H. rewrite protect_paying_customers_rows.
      apply Forall2_map_same. intros. apply protect_row_lawful.
    - inversion H. rewrite sync_subscription_status_rows.
      apply Forall2_map_same. intros. apply sync_pass_lawful.
    - inversion H. rewrite check_expired_trials_rows.
      apply Forall2_map_same. intros. apply trial_pass_lawful.
    - inversion H. simpl. apply Forall2_map_same. intros.
      apply mark_trial_converted_row_lawful.
    - rewrite final_sync_user_state_refused in H. discriminate.
    - destruct (final_on_subscription_change_refused now NEW db) as (e & He).
      rewrite He in H. discriminate.
    - rewrite final_reconcile_refused in H. discriminate. }
  split; [exact Hl|].
  eapply Forall2_impl; [|exact Hl].
  intros t t' (_ & _ & Ht & _) Hc. rewrite Hc in Ht.
  inversion Ht; congruence.
Qed.

Lemma complete_check_expired_trials_rows now db :
  Complete.user_trials (Complete.check_expired_trials now db)
  = map (Complete.trial_pass now (Complete.paying db)) (Complete.user_trials db).
Proof.
  unfold Complete.check_expired_trials, Complete.sync_subscription_status,
    Complete.schedule_deletions, Complete.expire_trials, Complete.mark_converted,
    Complete.protect_paying_customers, update.
  simpl. now rewrite !map_map.
Qed.

Lemma complete_trial_pass_expires now pay t :
  uuid_in (ut_user_id t) pay = false ->
  ut_trial_status t = T_active ->
  (trial_end_date t <? now) = true ->
  ut_trial_status (Complete.trial_pass now pay t) = T_expired
  /\ deletion_scheduled_at (Complete.trial_pass now pay t) = Some (now + interval_1_day).
Proof. trial_cases t pay now; intros; try congruence; auto. Qed.

Lemma complete_trial_pass_schedules now pay t :
  ut_trial_status (Complete.trial_pass now pay t) = T_scheduled_for_deletion ->
  ut_trial_status t = T_scheduled_for_deletion
  \/ (ut_trial_status t = T_expired
      /\ exists d, deletion_scheduled_at t = Some d /\ d < now).
Proof.
  trial_cases t pay now; intros; try congruence; auto;
    right; split; auto; eexists; split; eauto; now apply Z.ltb_lt.
Qed.

(** X5. Off the super admin's rows the trial passes of the two scripts are
    the same function. *)
Theorem complete_trial_pass_agrees now pay t :
  N.eqb (ut_user_id t) super_admin_id = false ->
  Complete.trial_pass now pay t = Final.trial_pass now pay t.
Proof. trial_cases t pay now; intros; try congruence; reflexivity. Qed.

(** C5, as the code has it. In one trial pass at [now] (that of
    [check_expired_trials], which is all a reconciliation run does to
    [user_trials]), in the final script and in the earlier one: an active
    row whose end date is strictly before [now], of a user that is neither
    the super admin nor holds a live active or trialing subscription,
    becomes expired with [deletion_scheduled_at = now + 1 day]; a row
    becomes scheduled for deletion only from expired, with a deletion date
    strictly before [now]; and no active row is scheduled in the same
    pass. *)
Theorem grace_period_is_kept (now : timestamptz) (db : Final.database)
        (cdb : Complete.database) :
  Forall2 (grace_step now (Final.stripe_customers db) (Final.stripe_subscriptions db))
          (Final.user_trials db)
          (Final.user_trials (Final.check_expired_trials now db))
  /\ (forall u db' rep,
         Final.reconcile now u db = Done (db', rep) ->
         Final.user_trials db' = Final.user_trials (Final.check_expired_trials now db))
  /\ Forall2 (grace_step now (Complete.stripe_customers cdb)
                         (Complete.stripe_subscriptions cdb))
             (Complete.user_trials cdb)
             (Complete.user_trials (Complete.check_expired_trials now cdb)).
Proof.
  split; [|split].
  - rewrite check_expired_trials_rows. apply Forall2_map_same. intros t _.
    split; [|split].
    + intros Hadm Hpay Hact Hend. apply trial_pass_expires; try assumption.
      * now apply N.eqb_neq.
      * now apply not_paying.
      * now apply Z.ltb_lt.
    + intros Hs Hn. destruct (trial_pass_schedules _ _ _ Hs) as [H|H];
        [contradiction | exact H].
    + intros Hact Hs. destruct (trial_pass_schedules _ _ _ Hs) as [H|(H & _)];
        congruence.
  - intros u db' rep H. rewrite final_reconcile_refused in H. discriminate.
  - rewrite complete_check_expired_trials_rows. apply Forall2_map_same. intros t _.
    split; [|split].
    + intros _ Hpay Hact Hend. apply complete_trial_pass_expires; try assumption.
      * now apply not_paying.
      * now apply Z.ltb_lt.
    + intros Hs Hn. destruct (complete_trial_pass_schedules _ _ _ Hs) as [H|H];
        [contradiction | exact H].
    + intros Hact Hs.
      destruct (complete_trial_pass_schedules _ _ _ Hs) as [H|(H & _)]; congruence.
Qed.

(** ** Outer joins, [LIMIT 1] and [SELECT INTO] *)

Lemma in_left_join {A B} (on : A -> B -> bool) l r a ob :
  In (a, ob) (left_join on l r)
  <-> In a l /\ match ob with
                | Some b => In b r /\ on a b = true
                | None => forall b, In b r -> on a b = false
                end.
Proof.
  unfold left_join. rewrite in_flat_map. split.
  - intros (a' & Ha & Hin). destruct (filter (on a') r) as [|b0 bs] eqn:Ef.
    + destruct Hin as [Heq|[]]. inversion Heq; subst. split; [assumption|].
      intros b Hb. destruct (on a b) eqn:E; [|reflexivity].
      assert (Hf : In b (filter (on a) r)) by (apply filter_In; tauto).
      rewrite Ef in Hf. destruct Hf.
    + apply in_map_iff in Hin. destruct Hin as (b & Heq & Hb).
      inversion Heq; subst. rewrite <- Ef in Hb. apply filter_In in Hb. tauto.
  - intros (Ha & Hob). exists a. split; [assumption|].
    destruct ob as [b|].
    + destruct Hob as (Hb & Hon).
      assert (Hf : In b (filter (on a) r)) by (apply filter_In; tauto).
      destruct (filter (on a) r) as [|b0 bs]; [destruct Hf|].
      apply in_map_iff. exists b. split; [reflexivity | assumption].
    + destruct (filter (on a) r) as [|b0 bs] eqn:Ef; [now left|].
      assert (Hf : In b0 (filter (on a) r)) by (rewrite Ef; now left).
      apply filter_In in Hf. destruct Hf as (Hb & Hon).
      rewrite (Hob b0 Hb) in Hon. discriminate.
Qed.

Lemma order_by_desc_limit_1_in {A} (key : A -> option timestamptz) rows x :
  order_by_desc_limit_1 key rows = Some x -> In x rows.
Proof.
  revert x. induction rows as [|r rest IH]; simpl; intros x H; [discriminate|].
  destruct (order_by_desc_limit_1 key rest) as [r'|].
  - destruct (sorts_first_desc (key r) (key r')); inversion H; subst; auto.
  - inversion H. now left.
Qed.

Lemma order_by_desc_limit_1_some {A} (key : A -> option timestamptz) rows :
  rows <> [] -> exists x, order_by_desc_limit_1 key rows = Some x.
Proof.
  destruct rows as [|r rest]; [congruence|]. intros _. simpl.
  destruct (order_by_desc_limit_1 key rest) as [r'|]; [|eauto].
  destruct (sorts_first_desc (key r) (key r')); eauto.
Qed.

Lemma first_row_filter_map {A} (f : A -> A) (p : A -> bool) (l : list A) :
  (forall x, p (f x) = p x) ->
  first_row (filter p (map f l)) = option_map f (first_row (filter p l)).
Proof.
  intro H. induction l as [|x l IH]; simpl; [reflexivity|].
  rewrite H. destruct (p x); simpl; auto.
Qed.

Lemma first_row_filter_some {A} (p : A -> bool) (l : list A) x :
  In x l -> p x = true -> exists y, first_row (filter p l) = Some y /\ In y l /\ p y = true.
Proof.
  intros Hin Hp.
  assert (Hf : In x (filter p l)) by (apply filter_In; tauto).
  destruct (filter p l) as [|y ys] eqn:E; [destruct Hf|].
  exists y. split; [reflexivity|].
  assert (Hy : In y (filter p l)) by (rewrite E; now left).
  apply filter_In in Hy. exact Hy.
Qed.

(** ** Rows under an [UPDATE] *)

Lemma existsb_update {A} (cond : A -> bool) (set : A -> A) (t : list A) :
  (forall r, cond (set r) = cond r) ->
  existsb cond (update cond set t) = existsb cond t.
Proof.
  intro H. unfold update. induction t as [|r t IH]; simpl; [reflexivity|].
  rewrite IH. f_equal. unfold update_row. destruct (cond r) eqn:E; [|exact E].
  now rewrite H.
Qed.

(** ** Access after a reconciliation run *)



(** C3 fails on the final script by the error of [sync_user_state].  User
    8 holds a live active subscription; the trial is scheduled for
    deletion and the derived state says [has_access = false].  The
    reconciliation run raises and is rolled back: nothing changes.  When
    the two functions are called one after the other, each on its own,
    the trial pass converts the trial and [sync_user_state] raises: the
    derived state still says [has_access = false]. *)
Theorem paying_user_access_is_not_restored :
  run (day 10) (op_reconcile 8%N) rescue_db = Raised datatype_mismatch
  /\ (let db' := committed rescue_db (run (day 10) (op_reconcile 8%N) rescue_db) in
      map ut_trial_status (Final.user_trials db') = [T_scheduled_for_deletion]
      /\ map Final.uas_has_access (Final.user_account_state db') = [false])
  /\ (let db1 := Final.check_expired_trials (day 10) rescue_db in
      let db' := committed db1 (run (day 10) (op_sync_user_state 8%N) db1) in
      map ut_trial_status (Final.user_trials db') = [T_converted_to_paid]
      /\ map Final.uas_has_access (Final.user_account_state db') = [false]).
Proof. split; [reflexivity|]. split; split; reflexivity. Qed.

(** ** The subscription trigger *)

(** C4 fails on the final script.  The trigger that fires when the active
    subscription row is written calls [sync_user_state], which raises: the
    trigger raises, the statement that wrote the row is aborted, and the
    trial stays scheduled for deletion with its deletion date, the derived
    state without access. *)
Theorem final_trigger_keeps_trial_scheduled :
  Final.on_subscription_change (day 10) paid_subscription rescue_db
  = Raised datatype_mismatch
  /\ (let db' := committed rescue_db
                           (Final.on_subscription_change (day 10) paid_subscription
                                                         rescue_db) in
      map ut_trial_status (Final.user_trials db') = [T_scheduled_for_deletion]
      /\ map deletion_scheduled_at (Final.user_trials db') = [Some (day 8)]
      /\ map Final.uas_has_access (Final.user_account_state db') = [false]).
Proof. split; [reflexivity|]. repeat split. Qed.

(** X7. The trigger function of the earlier script does what the final one
    misses: written an active or trialing row whose customer is live, it
    converts every trial row of that customer's user and clears its
    deletion date.  It does not touch the derived state. *)
Theorem complete_trigger_converts now NEW db c :
  in_active_trialing (ss_status NEW) = true ->
  filter (fun c => String.eqb (sc_customer_id c) (ss_customer_id NEW)
                   && is_null (sc_deleted_at c))
         (Complete.stripe_customers db) = [c] ->
  exists db',
    Complete.on_subscription_change now NEW db = Done db'
    /\ Complete.user_account_state db' = Complete.user_account_state db
    /\ Forall2 (fun t t' =>
                  ut_user_id t' = ut_user_id t
                  /\ (ut_user_id t = sc_user_id c ->
                      ut_trial_status t' = T_converted_to_paid
                      /\ deletion_scheduled_at t' = None))
               (Complete.user_trials db) (Complete.user_trials db').
Proof.
  intros Hst Hc. unfold Complete.on_subscription_change. rewrite Hst, Hc.
  eexists. split; [reflexivity|]. split; [reflexivity|]. simpl.
  apply Forall2_map_same. intros t _. unfold update_row.
  destruct (N.eqb (ut_user_id t) (sc_user_id c)) eqn:E.
  - split; [reflexivity|]. intros _. split; reflexivity.
  - split; [reflexivity|]. intro H. apply N.eqb_neq in E. contradiction.
Qed.

Lemma complete_trigger_rescues :
  exists db',
    Complete.on_subscription_change (day 10) paid_subscription complete_rescue_db = Done db'
    /\ map ut_trial_status (Complete.user_trials db') = [T_converted_to_paid]
    /\ map deletion_scheduled_at (Complete.user_trials db') = [None]
    /\ map Complete.uas_has_access (Complete.user_account_state db') = [false].
Proof. eexists. split; [reflexivity|]. repeat split. Qed.

(** ** Idempotence *)

(** The trial pass changes nothing in a database it has just been run on,
    nor when only the derived state was rewritten since. *)
Lemma check_expired_trials_settled now db db1 :
  same_sources (Final.check_expired_trials now db) db1 ->
  Final.check_expired_trials now db1 = db1.
Proof.
  intros (Ha & Ht & Hc & Hs & Hx).
  rewrite check_expired_trials_frame.
  assert (Hpay : Final.paying db1 = Final.paying db).
  { unfold Final.paying. rewrite Hc, Hs. reflexivity. }
  rewrite Hpay, Ht, check_expired_trials_rows, map_map.
  rewrite (map_ext _ _ (trial_pass_idempotent now (Final.paying db))).
  rewrite <- check_expired_trials_rows, <- Ht.
  destruct db1. reflexivity.
Qed.


(** ** The access classifier of sync_user_state (earlier script and
       enhancement script) *)

Lemma trial_running_spec now trial :
  is_true (Complete.trial_running now trial) = true <-> trial_still_running now trial.
Proof.
  unfold Complete.trial_running, trial_still_running.
  destruct trial as [t|]; simpl.
  - destruct (trial_status_eqb (ut_trial_status t) T_active) eqn:Es;
      destruct (Z.ltb_spec now (trial_end_date t)) as [Hl|Hl]; simpl; split;
      try discriminate; try reflexivity.
    + intros _. exists t. repeat split; try assumption. now apply trial_status_eqb_eq.
    + intros (t' & Ht & _ & Hlt). inversion Ht. subst. lia.
    + intros (t' & Ht & Hs & _). inversion Ht. subst.
      apply trial_status_eqb_eq in Hs. congruence.
    + intros (t' & Ht & _ & Hlt). inversion Ht. subst. lia.
  - split; [discriminate|]. intros (t & Ht & _). discriminate.
Qed.

(** C6 as stated fails twice: a canceled subscription denies access although
    the trial is active and runs for two more days, and an unpaid one with
    no running trial gets the level 'suspended', not 'trial'. *)
Lemma canceled_does_not_fall_back :
  (let rep := snd (Complete.sync_user_state (day 10) 9%N (classifier_db S_canceled)) in
   trial_still_running (day 10) (trial_info 9%N (classifier_db S_canceled))
   /\ Complete.sr_has_access rep = false
   /\ Complete.sr_access_level rep = "trial"
   /\ map Complete.uas_has_access
          (Complete.user_account_state
             (fst (Complete.sync_user_state (day 10) 9%N (classifier_db S_canceled))))
      = [false])
  /\ (let rep := snd (Complete.sync_user_state (day 13) 9%N (classifier_db S_unpaid)) in
      Complete.sr_has_access rep = false
      /\ Complete.sr_access_level rep = "suspended").
Proof.
  split.
  - split; [|repeat split].
    exists (trial_row 9%N 12 T_active None). repeat split.
  - split; reflexivity.
Qed.

Lemma classify_past_due now trial :
  Complete.classify now (Some S_past_due) trial
  = (Complete.subscription_past_due, false, "suspended").
Proof. reflexivity. Qed.

Lemma classify_canceled now trial :
  Complete.classify now (Some S_canceled) trial
  = (Complete.subscription_canceled, false, "trial").
Proof. reflexivity. Qed.

Lemma classify_unpaid now trial :
  Complete.classify now (Some S_unpaid) trial
  = if is_true (Complete.trial_running now trial)
    then (Complete.trial_active, true, "trial")
    else (Complete.trial_expired, false, "suspended").
Proof. reflexivity. Qed.

Lemma complete_sync_user_state_report now p db :
  let rep := snd (Complete.sync_user_state now p db) in
  (Complete.sr_status rep, Complete.sr_has_access rep, Complete.sr_access_level rep)
  = Complete.classify now (Complete.si_status (Complete.get_stripe_info p db))
                      (trial_info p db).
Proof.
  unfold Complete.sync_user_state, trial_info.
  destruct (Complete.classify _ _ _) as [[st ha] al]. reflexivity.
Qed.

Lemma complete_sync_user_state_written now p db r' :
  In r' (Complete.user_account_state (fst (Complete.sync_user_state now p db))) ->
  Complete.uas_user_id r' = p ->
  (Complete.uas_account_status r', Complete.uas_has_access r',
   Complete.uas_access_level r')
  = Complete.classify now (Complete.si_status (Complete.get_stripe_info p db))
                      (trial_info p db).
Proof.
  unfold Complete.sync_user_state, trial_info.
  destruct (Complete.classify _ _ _) as [[st ha] al] eqn:Ec. simpl.
  intros Hin Hu. apply in_update in Hin. destruct Hin as (r & _ & Heq).
  unfold update_row in Heq. destruct (N.eqb (Complete.uas_user_id r) p) eqn:E.
  - subst r'. unfold Complete.set_account_state. rewrite Ec. reflexivity.
  - subst r'. apply N.eqb_neq in E. contradiction.
Qed.

(** C6, as the code has it. With [status] the subscription status that
    [sync_user_state] reads for the user: past_due gives 'suspended' without
    access whatever the trial; canceled gives the level 'trial' without
    access whatever the trial; unpaid has no branch of its own and gets the
    trial evaluation: access and level 'trial' while the trial is active
    and not ended, no access and level 'suspended' otherwise.  The report
    and every row written for the user carry these values. *)
Theorem access_classifier_by_billing_status (now : timestamptz) (p_user_id : uuid)
        (db : Complete.database) :
  let status := Complete.si_status (Complete.get_stripe_info p_user_id db) in
  let trial := trial_info p_user_id db in
  let run := Complete.sync_user_state now p_user_id db in
  let decides (v : Complete.user_account_status * bool * text) :=
    (Complete.sr_status (snd run), Complete.sr_has_access (snd run),
     Complete.sr_access_level (snd run)) = v
    /\ forall r', In r' (Complete.user_account_state (fst run)) ->
                  Complete.uas_user_id r' = p_user_id ->
                  (Complete.uas_account_status r', Complete.uas_has_access r',
                   Complete.uas_access_level r') = v in
  (status = Some S_past_due ->
   decides (Complete.subscription_past_due, false, "suspended"))
  /\ (status = Some S_canceled ->
      decides (Complete.subscription_canceled, false, "trial"))
  /\ (status = Some S_unpaid -> trial_still_running now trial ->
      decides (Complete.trial_active, true, "trial"))
  /\ (status = Some S_unpaid -> ~ trial_still_running now trial ->
      decides (Complete.trial_expired, false, "suspended")).
Proof.
  intros status trial run decides.
  assert (Hd : decides (Complete.classify now status trial)).
  { split.
    - apply complete_sync_user_state_report.
    - intros r' Hin Hu. now apply complete_sync_user_state_written. }
  split; [|split; [|split]].
  - intro Hs. rewrite Hs in Hd. exact Hd.
  - intro Hs. rewrite Hs in Hd. exact Hd.
  - intros Hs Ht. rewrite Hs, classify_unpaid in Hd.
    apply trial_running_spec in Ht. rewrite Ht in Hd. exact Hd.
  - intros Hs Ht. rewrite Hs, classify_unpaid in Hd.
    destruct (is_true (Complete.trial_running now trial)) eqn:E.
    + exfalso. apply Ht. now apply trial_running_spec.
    + exact Hd.
Qed.

Lemma access_classifier_by_billing_status_witness :
  let run := Complete.sync_user_state (day 10) 9%N (classifier_db S_past_due) in
  (Complete.sr_status (snd run), Complete.sr_has_access (snd run),
   Complete.sr_access_level (snd run))
  = (Complete.subscription_past_due, false, "suspended").
Proof.
  exact (proj1 (proj1 (access_classifier_by_billing_status
                         (day 10) 9%N (classifier_db S_past_due)) eq_refl)).
Defined.

(** ** The protection guard *)

Lemma left_join_total {A B} (on : A -> B -> bool) l r a :
  In a l -> exists ob, In (a, ob) (left_join on l r).
Proof.
  intro Ha. destruct (filter (on a) r) as [|b bs] eqn:Ef.
  - exists None. apply in_left_join. split; [assumption|].
    intros b Hb. destruct (on a b) eqn:E; [|reflexivity].
    assert (Hf : In b (filter (on a) r)) by (apply filter_In; tauto).
    rewrite Ef in Hf. destruct Hf.
  - exists (Some b). apply in_left_join. split; [assumption|].
    assert (Hf : In b (filter (on a) r)) by (rewrite Ef; now left).
    apply filter_In in Hf. exact Hf.
Qed.

(** C7 as stated fails on the earlier script, whose guard does not know
    the super admin and protects a converted trial: without any billing
    row it answers false for the super admin and true for user 8, whose
    trial is converted_to_paid. *)
Lemma earlier_guard_differs :
  map Complete.is_protected (Complete.verify_user_protection super_admin_id complete_admin_db)
  = [false]
  /\ Complete.stripe_subscriptions complete_admin_db = []
  /\ map Complete.is_protected (Complete.verify_user_protection 8%N complete_converted_db)
     = [true]
  /\ Complete.stripe_customers complete_converted_db = []
  /\ Complete.stripe_subscriptions complete_converted_db = [].
Proof. repeat split. Qed.

(** C7, for the final script. For a user with the one customer row the
    schema allows, the [verify_user_protection] of
    FINAL_COMPLETE_DATABASE_SETUP.sql answers with [is_protected = true] exactly
    when the user is the super admin or has a subscription, active or
    trialing and not soft-deleted, on that customer row; every other answer
    is false.  A registered user gets an answer. *)
Theorem verify_user_protection_exact (p_user_id : uuid) (db : Final.database) :
  one_customer_row db p_user_id ->
  (In p_user_id (map au_id (Final.auth_users db)) ->
   Final.verify_user_protection p_user_id db <> [])
  /\ forall r, In r (Final.verify_user_protection p_user_id db) ->
               Final.pr_user_id r = p_user_id
               /\ (Final.is_protected r = true
                   <-> p_user_id = super_admin_id \/ subscribed db p_user_id)
               /\ (Final.is_protected r = false
                   <-> ~ (p_user_id = super_admin_id \/ subscribed db p_user_id)).
Proof.
  intro Hone. split.
  - intro Hreg. apply in_map_iff in Hreg. destruct Hreg as (u & Hu & Hin).
    destruct (left_join_total (fun u ut => N.eqb (au_id u) (ut_user_id ut))
                              _ (Final.user_trials db) u Hin) as (ut & H1).
    destruct (left_join_total (fun r sc => N.eqb (au_id (fst r)) (sc_user_id sc))
                              _ (Final.stripe_customers db) _ H1) as (sc & H2).
    destruct (left_join_total
                (fun (r : auth_user * option user_trial * option stripe_customer) ss =>
                   match snd r with
                   | Some sc => String.eqb (sc_customer_id sc) (ss_customer_id ss)
                                && in_active_trialing (ss_status ss)
                                && is_null (ss_deleted_at ss)
                   | None => false
                   end)
                _ (Final.stripe_subscriptions db) _ H2) as (ss & H3).
    unfold Final.verify_user_protection.
    assert (Hf : In (u, ut, sc, ss)
                    (filter (fun r => let '(u, _, _, _) := r in N.eqb (au_id u) p_user_id)
                            (Final.protection_rows db))).
    { apply filter_In. split; [exact H3|]. rewrite Hu. apply N.eqb_refl. }
    intro E. apply map_eq_nil in E. rewrite E in Hf. destruct Hf.
  - intros r Hr.
    assert (Hgoal : Final.pr_user_id r = p_user_id
                    /\ (Final.is_protected r = true
                        <-> p_user_id = super_admin_id \/ subscribed db p_user_id)).
    { unfold Final.verify_user_protection in Hr. apply in_map_iff in Hr.
      destruct Hr as ([[[u ut] osc] oss] & Hr & Hin).
      apply filter_In in Hin. destruct Hin as (Hrow & Hu).
      apply N.eqb_eq in Hu. unfold Final.protection_rows in Hrow.
      apply in_left_join in Hrow. destruct Hrow as (Hrow & Hss).
      apply in_left_join in Hrow. destruct Hrow as (_ & Hsc).
      simpl in Hss, Hsc. subst r. simpl. split; [exact Hu|].
      rewrite Hu. destruct (N.eqb p_user_id super_admin_id) eqn:Eadm.
      { apply N.eqb_eq in Eadm. split; auto. }
      apply N.eqb_neq in Eadm. split.
      - destruct oss as [s|]; simpl; [|discriminate].
        destruct (in_active_trialing (ss_status s)) eqn:Est; [|discriminate].
        intros _. right. destruct Hss as (Hs & Hon).
        destruct osc as [c|]; [|discriminate].
        destruct Hsc as (Hc & Hcu). apply N.eqb_eq in Hcu.
        apply andb_prop in Hon. destruct Hon as (Hon & Hdel).
        apply andb_prop in Hon. destruct Hon as (Hid & _).
        exists c, s. repeat split; try assumption.
        + congruence.
        + now apply String.eqb_eq.
        + now apply in_active_trialing_spec.
        + now apply is_null_spec.
      - intros [Hadm | (c & s & Hc & Hcu & Hs & Hid & Hst & Hdel)]; [contradiction|].
        destruct osc as [c'|].
        + destruct Hsc as (Hc' & Hcu'). apply N.eqb_eq in Hcu'.
          assert (c' = c) by (apply Hone; congruence). subst c'.
          assert (Hon : (String.eqb (sc_customer_id c) (ss_customer_id s)
                         && in_active_trialing (ss_status s)
                         && is_null (ss_deleted_at s))%bool = true).
          { rewrite Hid, String.eqb_refl, Hdel.
            apply in_active_trialing_spec in Hst. now rewrite Hst. }
          destruct oss as [s'|]; simpl.
          * destruct Hss as (_ & Hon'). apply andb_prop in Hon'.
            destruct Hon' as (Hon' & _). apply andb_prop in Hon'.
            destruct Hon' as (_ & Hst'). now rewrite Hst'.
          * rewrite (Hss s Hs) in Hon. discriminate.
        + specialize (Hsc c Hc). rewrite Hu, Hcu, N.eqb_refl in Hsc. discriminate. }
    destruct Hgoal as (Hid & Hiff). split; [exact Hid|]. split; [exact Hiff|].
    rewrite <- Hiff. destruct (Final.is_protected r); split; congruence.
Qed.

Lemma verify_user_protection_exact_witness :
  Final.verify_user_protection 8%N rescue_db <> []
  /\ forall r, In r (Final.verify_user_protection 8%N rescue_db) ->
               Final.pr_user_id r = 8%N
               /\ (Final.is_protected r = true
                   <-> 8%N = super_admin_id \/ subscribed rescue_db 8%N)
               /\ (Final.is_protected r = false
                   <-> ~ (8%N = super_admin_id \/ subscribed rescue_db 8%N)).
Proof.
  assert (Hone : one_customer_row rescue_db 8%N).
  { intros c1 c2 [H1|[]] [H2|[]] _ _. congruence. }
  destruct (verify_user_protection_exact 8%N rescue_db Hone) as (Hne & Hall).
  split; [|exact Hall]. apply Hne. simpl. left. reflexivity.
Defined.

(** ** Runs on the sample rows *)

(** C5 as stated fails at the boundary: a trial that ends exactly at [now]
    is at or before the current time, its user is neither super admin nor
    paying, and the pass leaves the row as it is, active and without
    deletion date. *)
Lemma trial_ending_now_is_not_expired :
  exists t,
    Final.user_trials trial_user_db = [t]
    /\ ut_user_id t <> super_admin_id
    /\ ~ holds_live_subscription (Final.stripe_customers trial_user_db)
                                 (Final.stripe_subscriptions trial_user_db)
                                 (ut_user_id t)
    /\ ut_trial_status t = T_active
    /\ trial_end_date t <= day 7
    /\ Final.user_trials (Final.check_expired_trials (day 7) trial_user_db) = [t]
    /\ Final.user_trials (Final.sync_subscription_status (day 7) trial_user_db) = [t].
Proof.
  exists (trial_row 7%N 7 T_active None).
  split; [reflexivity|]. split; [discriminate|].
  split; [intros (c & s & [] & _)|].
  split; [reflexivity|]. split; [discriminate|].
  split; reflexivity.
Qed.

Lemma trial_status_moves_lawfully_witness :
  Forall2 (lawful_step (day 10))
          (Final.user_trials rescue_db)
          (Final.user_trials (Final.check_expired_trials (day 10) rescue_db))
  /\ Forall2 (fun t t' => ut_trial_status t = T_converted_to_paid ->
                          ut_trial_status t' = T_converted_to_paid)
             (Final.user_trials rescue_db)
             (Final.user_trials (Final.check_expired_trials (day 10) rescue_db)).
Proof.
  apply (trial_status_moves_lawfully (day 10) op_check_expired_trials rescue_db).
  reflexivity.
Defined.

(** ** Further properties of the scripts *)

(** X2. The trial pass is idempotent on the whole database. *)
Theorem check_expired_trials_idempotent (now : timestamptz) (db : Final.database) :
  Final.check_expired_trials now (Final.check_expired_trials now db)
  = Final.check_expired_trials now db.
Proof.
  apply (check_expired_trials_settled now db). unfold same_sources. tauto.
Qed.

(** X3. Whatever else the tables hold, the trial pass leaves every trial row of
    a user with a live active or trialing subscription converted to paid,
    and without deletion date if it was not converted before. *)
Theorem paying_user_trial_is_converted (now : timestamptz) (db : Final.database) :
  Forall2 (fun t t' =>
             holds_live_subscription (Final.stripe_customers db)
                                     (Final.stripe_subscriptions db) (ut_user_id t) ->
             ut_trial_status t' = T_converted_to_paid
             /\ (ut_trial_status t <> T_converted_to_paid ->
                 deletion_scheduled_at t' = None))
          (Final.user_trials db)
          (Final.user_trials (Final.check_expired_trials now db)).
Proof.
  rewrite check_expired_trials_rows. apply Forall2_map_same. intros t _ Hpay.
  apply is_paying in Hpay.
  pose proof (trial_pass_paying now _ t Hpay) as Hc. split; [exact Hc|].
  intro Hn. destruct (trial_pass_lawful now (Final.paying db) t)
    as (_ & _ & _ & _ & Hd). now apply Hd.
Qed.

(** X4. [sync_user_state] of the final script completes for no user and on
    no database: every call raises [datatype_mismatch].  Of the seven
    assignments of its [UPDATE], the two whose value is a [CASE] over
    string literals, to [account_status] and to [access_level], are the
    ones the column types refuse, whatever the values read. *)
Theorem sync_user_state_always_raises (now : timestamptz) (u : uuid)
        (db : Final.database) :
  Final.sync_user_state now u db = Raised datatype_mismatch
  /\ forall v_user_email v_has_subscription v_trial_days v_subscription_status,
      map Final.target
          (filter (fun a => negb (assignable (Final.expression_type a)
                                             (Final.column_type (Final.target a))))
                  (Final.sync_user_state_set_list now v_user_email v_has_subscription
                                                  v_trial_days v_subscription_status))
      = [Final.col_account_status; Final.col_access_level].
Proof. split; [reflexivity|]. intros. reflexivity. Qed.

(** On the sample rows the sweeper of the earlier script lists the super
    admin, its trial being scheduled for deletion and ended more than a
    day ago. *)
Lemma complete_sweeper_lists_super_admin :
  Complete.get_users_for_deletion (day 10) complete_admin_db
  = [(super_admin_id, "admin@example.org", day 7)].
Proof. reflexivity. Qed.

Lemma complete_trial_pass_agrees_witness :
  Complete.trial_pass (day 10) [] (trial_row 7%N 7 T_active None)
  = Final.trial_pass (day 10) [] (trial_row 7%N 7 T_active None).
Proof.
  apply (complete_trial_pass_agrees (day 10) [] (trial_row 7%N 7 T_active None)).
  reflexivity.
Defined.

Lemma complete_trigger_converts_witness :
  exists db',
    Complete.on_subscription_change (day 10) paid_subscription complete_rescue_db = Done db'
    /\ Complete.user_account_state db' = Complete.user_account_state complete_rescue_db
    /\ Forall2 (fun t t' =>
                  ut_user_id t' = ut_user_id t
                  /\ (ut_user_id t = 8%N ->
                      ut_trial_status t' = T_converted_to_paid
                      /\ deletion_scheduled_at t' = None))
               (Complete.user_trials complete_rescue_db) (Complete.user_trials db').
Proof.
  apply (complete_trigger_converts (day 10) paid_subscription complete_rescue_db
           (customer_row 8%N "cus_8")); reflexivity.
Defined.

(** ** The two entry points of the trial pass *)

Lemma trial_pass_is_sync_pass now pay t :
  Final.trial_pass now pay t = Final.sync_pass now pay t.
Proof. trial_cases t pay now; reflexivity. Qed.

Lemma protect_after_sync_pass now now' pay t :
  update_row (Final.to_protect pay) (set_converted now') (Final.sync_pass now pay t)
  = Final.sync_pass now pay t.
Proof. trial_cases t pay now; reflexivity. Qed.

Lemma sync_subscription_status_frame now db :
  Final.sync_subscription_status now db
  = Final.with_user_trials db
      (map (Final.sync_pass now (Final.paying db)) (Final.user_trials db)).
Proof.
  rewrite <- sync_subscription_status_rows. reflexivity.
Qed.

(** X9. [protect_paying_customers] adds nothing to [sync_subscription_status]:
    [check_expired_trials], which runs the one and then the other, leaves the
    database that [sync_subscription_status] alone leaves, and a call of
    [protect_paying_customers] that follows [sync_subscription_status], at
    whatever time, changes no row. *)
Theorem protect_paying_customers_adds_nothing (now now' : timestamptz)
        (db : Final.database) :
  Final.check_expired_trials now db = Final.sync_subscription_status now db
  /\ Final.protect_paying_customers now' (Final.sync_subscription_status now db)
     = Final.sync_subscription_status now db.
Proof.
  split.
  - rewrite check_expired_trials_frame, sync_subscription_status_frame.
    f_equal. apply map_ext. intro t. apply trial_pass_is_sync_pass.
  - rewrite sync_subscription_status_frame at 2.
    unfold Final.protect_paying_customers, update.
    rewrite sync_subscription_status_rows, map_map.
    change (Final.paying (Final.sync_subscription_status now db)) with (Final.paying db).
    rewrite (map_ext _ _ (protect_after_sync_pass now now' (Final.paying db))).
    destruct db. reflexivity.
Qed.

(** ** The health check *)

(** X10. [check_database_health] never answers HEALTHY for a database in
    which it finds every component as expected: the overall status asks
    for 8 triggers where the triggers entry asks for 6, so a report whose
    four entries are all OK has the overall status ISSUES_DETECTED. *)
Theorem check_database_health_all_ok_is_not_healthy
        (now : timestamptz) (table_count function_count view_count trigger_count : Z) :
  let report := Final.check_database_health now table_count function_count
                                            view_count trigger_count in
  Final.status (Final.health_tables report) = "OK" ->
  Final.status (Final.health_functions report) = "OK" ->
  Final.status (Final.health_views report) = "OK" ->
  Final.status (Final.health_triggers report) = "OK" ->
  Final.overall_status report = "ISSUES_DETECTED".
Proof.
  cbn. intros Ht Hf Hv Hg.
  destruct (trigger_count =? 6) eqn:E; [|discriminate].
  apply Z.eqb_eq in E. subst trigger_count.
  now rewrite !andb_false_r.
Qed.

Lemma check_database_health_all_ok_is_not_healthy_witness :
  Final.overall_status (Final.check_database_health (day 1) 6 17 4 6) = "ISSUES_DETECTED".
Proof.
  apply (check_database_health_all_ok_is_not_healthy (day 1) 6 17 4 6); reflexivity.
Defined.

(** ** The rows the sweeper lists *)

(** X11. [get_users_for_deletion] of the final script lists exactly the due
    users: a row is listed if and only if it is the id, the email and the
    trial end of a registered user's trial row that is scheduled for
    deletion and ended more than a day ago, the user being neither the
    super admin nor the holder of a live active or trialing subscription. *)
Theorem get_users_for_deletion_exact (now : timestamptz) (db : Final.database)
        (r : Final.deletion_candidate) :
  In r (Final.get_users_for_deletion now db)
  <-> exists t au,
      In t (Final.user_trials db) /\ In au (Final.auth_users db)
      /\ ut_user_id t = au_id au
      /\ r = {| Final.dc_user_id := ut_user_id t;
                Final.dc_email := au_email au;
                Final.dc_trial_end_date := trial_end_date t |}
      /\ ut_trial_status t = T_scheduled_for_deletion
      /\ ut_user_id t <> super_admin_id
      /\ ~ holds_live_subscription (Final.stripe_customers db)
                                   (Final.stripe_subscriptions db) (ut_user_id t)
      /\ trial_end_date t < now - interval_1_day.
Proof.
  unfold Final.get_users_for_deletion. rewrite in_map_iff. split.
  - intros ([t au] & Hr & Hin). apply filter_In in Hin. destruct Hin as (Hj & Hc).
    apply in_join in Hj. destruct Hj as (Ht & Hau & Hon). simpl in *.
    apply andb_true_iff in Hc. destruct Hc as (Hc & Hend).
    apply andb_true_iff in Hc. destruct Hc as (Hc & Hpay).
    apply andb_true_iff in Hc. destruct Hc as (Hst & Hadm).
    exists t, au. repeat split; auto.
    + now apply N.eqb_eq.
    + now apply trial_status_eqb_eq.
    + apply negb_true_iff in Hadm. now apply N.eqb_neq.
    + apply negb_true_iff in Hpay. intro Hl.
      apply paying_user_ids_spec, uuid_in_spec in Hl.
      unfold Final.paying in Hpay. congruence.
    + now apply Z.ltb_lt.
  - intros (t & au & Ht & Hau & Hid & Hr & Hst & Hadm & Hpay & Hend).
    exists (t, au). split; [now subst r|].
    apply filter_In. split.
    + apply in_join. repeat split; auto. now apply N.eqb_eq.
    + simpl. repeat (apply andb_true_iff; split).
      * now apply trial_status_eqb_eq.
      * apply negb_true_iff. now apply N.eqb_neq.
      * apply negb_true_iff. now apply not_paying.
      * now apply Z.ltb_lt.
Qed.

(** X6. [get_users_for_deletion] of the earlier script spares no identity:
    every registered user whose trial row is scheduled for deletion and
    ended more than a day ago, and who holds no live active or trialing
    subscription, is listed, the super admin like any other. *)
Theorem complete_sweeper_spares_no_identity (now : timestamptz) (db : Complete.database)
        (t : user_trial) (au : auth_user) :
  In t (Complete.user_trials db) ->
  In au (Complete.auth_users db) ->
  ut_user_id t = au_id au ->
  ut_trial_status t = T_scheduled_for_deletion ->
  trial_end_date t < now - interval_1_day ->
  ~ holds_live_subscription (Complete.stripe_customers db)
                            (Complete.stripe_subscriptions db) (ut_user_id t) ->
  In (ut_user_id t, au_email au, trial_end_date t)
     (Complete.get_users_for_deletion now db).
Proof.
  intros Ht Hau Hid Hst Hend Hpay.
  unfold Complete.get_users_for_deletion. apply in_map_iff.
  exists (t, au). split; [reflexivity|].
  apply filter_In. split.
  - apply in_join. repeat split; auto. now apply N.eqb_eq.
  - simpl. repeat (apply andb_true_iff; split).
    + now apply trial_status_eqb_eq.
    + apply negb_true_iff. now apply not_paying.
    + now apply Z.ltb_lt.
Qed.

Lemma no_subscription_without_customer subscriptions u :
  ~ holds_live_subscription [] subscriptions u.
Proof. intros (c & s & [] & _). Qed.

Lemma complete_sweeper_spares_no_identity_witness :
  In (super_admin_id, "admin@example.org", day 7)
     (Complete.get_users_for_deletion (day 10) complete_admin_db).
Proof.
  apply (complete_sweeper_spares_no_identity
           (day 10) complete_admin_db
           (trial_row super_admin_id 7 T_scheduled_for_deletion (Some (day 8)))
           (user_row super_admin_id "admin@example.org")).
  - left. reflexivity.
  - left. reflexivity.
  - reflexivity.
  - reflexivity.
  - reflexivity.
  - apply no_subscription_without_customer.
Defined.

(** ** Histories: what no sequence of operations does *)

Lemma sync_pass_super_admin now pay t :
  N.eqb (ut_user_id t) super_admin_id = true ->
  ut_trial_status (Final.sync_pass now pay t) = ut_trial_status t
  \/ ut_trial_status (Final.sync_pass now pay t) = T_converted_to_paid.
Proof. trial_cases t pay now; intro; try congruence; auto. Qed.

Lemma set_converted_row_status (cond : user_trial -> bool) now t :
  ut_trial_status (update_row cond (set_converted now) t) = ut_trial_status t
  \/ ut_trial_status (update_row cond (set_converted now) t) = T_converted_to_paid.
Proof. unfold update_row. destruct (cond t); auto. Qed.

(** One row before and after an event: its user and end date are kept, a
    converted row stays converted, no row becomes active, and a row of the
    super admin keeps its status or becomes converted. *)
Lemma lawful_step_kept now t t' :
  lawful_step now t t' ->
  ut_user_id t' = ut_user_id t
  /\ trial_end_date t' = trial_end_date t
  /\ (ut_trial_status t = T_converted_to_paid -> ut_trial_status t' = T_converted_to_paid)
  /\ (ut_trial_status t' = T_active -> ut_trial_status t = T_active).
Proof.
  intros (Hu & He & Ht & _). repeat split; auto.
  - intro Hc. rewrite Hc in Ht. inversion Ht; congruence.
  - intro Ha. rewrite Ha in Ht. inversion Ht; congruence.
Qed.

Lemma run_rows now op db db' :
  run now op db = Done db' ->
  Final.auth_users db' = Final.auth_users db
  /\ Forall2 (fun t t' =>
                lawful_step now t t'
                /\ (ut_user_id t = super_admin_id ->
                    ut_trial_status t' = ut_trial_status t
                    \/ ut_trial_status t' = T_converted_to_paid))
             (Final.user_trials db) (Final.user_trials db').
Proof.
  intro H. destruct op; cbn [run] in H.
  - inversion H. split; [reflexivity|]. rewrite protect_paying_customers_rows.
    apply Forall2_map_same. intros t _. split; [apply protect_row_lawful|].
    intros _. apply set_converted_row_status.
  - inversion H. split; [reflexivity|]. rewrite sync_subscription_status_rows.
    apply Forall2_map_same. intros t _. split; [apply sync_pass_lawful|].
    intro Ha. apply sync_pass_super_admin. now apply N.eqb_eq.
  - inversion H. split; [reflexivity|]. rewrite check_expired_trials_rows.
    apply Forall2_map_same. intros t _. split; [apply trial_pass_lawful|].
    intro Ha. apply trial_pass_super_admin. now apply N.eqb_eq.
  - inversion H. split; [reflexivity|]. simpl. apply Forall2_map_same. intros t _.
    split; [apply mark_trial_converted_row_lawful|].
    intros _. apply set_converted_row_status.
  - rewrite final_sync_user_state_refused in H. discriminate.
  - destruct (final_on_subscription_change_refused now NEW db) as (e & He).
    rewrite He in H. discriminate.
  - rewrite final_reconcile_refused in H. discriminate.
Qed.

Lemma Forall2_trans_with {A} (R : A -> A -> Prop) (l1 l2 l3 : list A) :
  (forall x y z, R x y -> R y z -> R x z) ->
  Forall2 R l1 l2 -> Forall2 R l2 l3 -> Forall2 R l1 l3.
Proof.
  intros Ht H12. revert l3. induction H12; intros l3 H23; inversion H23; subst;
    constructor; eauto.
Qed.

Lemma Forall2_in_r {A} (R : A -> A -> Prop) (l l' : list A) y :
  Forall2 R l l' -> In y l' -> exists x, In x l /\ R x y.
Proof.
  induction 1 as [|x x' l l' Hx _ IH]; simpl; [tauto|].
  intros [Hy|Hy].
  - subst. exists x. auto.
  - destruct (IH Hy) as (x0 & Hin & Hr). exists x0. auto.
Qed.

(** Over a whole history. *)
Lemma run_all_rows history db :
  Final.auth_users (run_all history db) = Final.auth_users db
  /\ Forall2 (fun t t' =>
                ut_user_id t' = ut_user_id t
                /\ trial_end_date t' = trial_end_date t
                /\ (ut_trial_status t = T_converted_to_paid ->
                    ut_trial_status t' = T_converted_to_paid)
                /\ (ut_trial_status t' = T_active -> ut_trial_status t = T_active)
                /\ (ut_user_id t = super_admin_id ->
                    ut_trial_status t' = ut_trial_status t
                    \/ ut_trial_status t' = T_converted_to_paid))
             (Final.user_trials db) (Final.user_trials (run_all history db)).
Proof.
  revert db. induction history as [|[now op|customers subscriptions] rest IH]; intro db.
  - split; [reflexivity|]. apply Forall2_same. intro t. tauto.
  - simpl. destruct (run now op db) as [db1|e] eqn:E; [|apply IH].
    apply run_rows in E. destruct E as (Ea & Er).
    destruct (IH db1) as (IHa & IHr). split; [congruence|].
    eapply Forall2_trans_with; [| |exact IHr].
    2:{ eapply Forall2_impl; [|exact Er].
        intros t t' (Hl & Hadm). apply lawful_step_kept in Hl.
        destruct Hl as (Hu & He & Hc & Hact).
        exact (conj Hu (conj He (conj Hc (conj Hact Hadm)))). }
    intros x y z (Hu1 & He1 & Hc1 & Ha1 & Hs1) (Hu2 & He2 & Hc2 & Ha2 & Hs2).
    repeat split; try congruence; auto.
    intro Hx. destruct (Hs1 Hx) as [H1|H1].
    + destruct (Hs2 ltac:(congruence)) as [H2|H2]; [left; congruence|now right].
    + right. auto.
  - simpl. destruct (IH (with_billing db customers subscriptions)) as (IHa & IHr).
    split; [exact IHa|exact IHr].
Qed.

(** No operation that completes touches the derived state: the four trial
    functions write [user_trials] only, and [sync_user_state], the
    subscription trigger and the reconciliation run never complete. *)
Lemma run_derived_state now op db db' :
  run now op db = Done db' ->
  Final.user_account_state db' = Final.user_account_state db.
Proof.
  intro H. destruct op; cbn [run] in H.
  - inversion H. reflexivity.
  - inversion H. reflexivity.
  - inversion H. reflexivity.
  - inversion H. reflexivity.
  - rewrite final_sync_user_state_refused in H. discriminate.
  - destruct (final_on_subscription_change_refused now NEW db) as (e & He).
    rewrite He in H. discriminate.
  - rewrite final_reconcile_refused in H. discriminate.
Qed.

Lemma run_all_derived_state history db :
  Final.user_account_state (run_all history db) = Final.user_account_state db.
Proof.
  revert db. induction history as [|[now op|customers subscriptions] rest IH]; intro db.
  - reflexivity.
  - simpl. destruct (run now op db) as [db1|e] eqn:E; [|apply IH].
    rewrite IH. now apply run_derived_state in E.
  - simpl. rewrite IH. reflexivity.
Qed.


(** X12. A converted trial is never undone, and its user never listed for
    deletion: if every trial row of a user is converted_to_paid, then
    after any history of operations of the final script, at any times and
    with any writes to the billing tables in between (a cancellation, a
    soft delete), every trial row of the user is still converted_to_paid
    and [get_users_for_deletion] does not list the user. *)
Theorem converted_user_is_never_listed (history : list event) (now : timestamptz)
        (db : Final.database) (u : uuid) :
  (forall t, In t (Final.user_trials db) -> ut_user_id t = u ->
             ut_trial_status t = T_converted_to_paid) ->
  (forall t', In t' (Final.user_trials (run_all history db)) -> ut_user_id t' = u ->
              ut_trial_status t' = T_converted_to_paid)
  /\ (forall r, In r (Final.get_users_for_deletion now (run_all history db)) ->
                Final.dc_user_id r <> u).
Proof.
  intro Hconv.
  assert (Hkept : forall t', In t' (Final.user_trials (run_all history db)) ->
                             ut_user_id t' = u ->
                             ut_trial_status t' = T_converted_to_paid).
  { intros t' Hin Hu. destruct (run_all_rows history db) as (_ & Hr).
    destruct (Forall2_in_r _ _ _ _ Hr Hin) as (t & Ht & Hid & _ & Hc & _).
    apply Hc. apply Hconv; [exact Ht|congruence]. }
  split; [exact Hkept|].
  intros r Hr Hu. unfold Final.get_users_for_deletion in Hr.
  apply in_map_iff in Hr. destruct Hr as ([t au] & Hr & Hin).
  apply filter_In in Hin. destruct Hin as (Hj & Hc).
  apply in_join in Hj. destruct Hj as (Ht & _). simpl in Hc.
  subst r. simpl in Hu.
  rewrite (Hkept t Ht Hu) in Hc. discriminate.
Qed.

Lemma converted_user_is_never_listed_witness :
  (forall t', In t' (Final.user_trials (run_all cancellation converted_db)) ->
              ut_user_id t' = 8%N ->
              ut_trial_status t' = T_converted_to_paid)
  /\ (forall r, In r (Final.get_users_for_deletion (day 40)
                        (run_all cancellation converted_db)) ->
                Final.dc_user_id r <> 8%N).
Proof.
  apply (converted_user_is_never_listed cancellation (day 40) converted_db 8%N).
  intros t [Ht|[]] _. subst t. reflexivity.
Defined.

(** X13. No history of operations of the final script, whatever the billing
    tables hold in between, expires the super admin's trial or schedules
    it for deletion: each of its trial rows keeps its status or becomes
    converted_to_paid. *)
Theorem super_admin_trial_is_never_expired (history : list event) (db : Final.database) :
  Forall2 (fun t t' =>
             ut_user_id t = super_admin_id ->
             ut_user_id t' = super_admin_id
             /\ (ut_trial_status t' = ut_trial_status t
                 \/ ut_trial_status t' = T_converted_to_paid))
          (Final.user_trials db) (Final.user_trials (run_all history db)).
Proof.
  destruct (run_all_rows history db) as (_ & Hr).
  eapply Forall2_impl; [|exact Hr].
  intros t t' (Hu & _ & _ & _ & Hs) Ha. split; [congruence|auto].
Qed.

(** ** The metrics *)



(** ** sync_all_users and the derived state *)

(** X15. [sync_all_users] of the final script syncs no one.  On a database
    without registered user it completes with an empty report; as soon as
    [auth.users] holds a row, its first call of [sync_user_state] raises
    and [sync_all_users] raises with it. *)
Theorem sync_all_users_syncs_no_one (now : timestamptz) (db : Final.database) :
  match Final.auth_users db with
  | [] => Final.sync_all_users now db
          = Done (db, {| Final.total_synced := 0;
                         Final.results := [];
                         Final.sar_timestamp := now |})
  | _ :: _ => Final.sync_all_users now db = Raised datatype_mismatch
  end.
Proof.
  unfold Final.sync_all_users. destruct (Final.auth_users db) as [|au rest].
  - reflexivity.
  - cbn [map Final.sync_each]. rewrite final_sync_user_state_refused. reflexivity.
Qed.

(** X16. The derived state is never refreshed.  Over any history of calls
    of protect_paying_customers, sync_subscription_status,
    check_expired_trials, mark_trial_converted, sync_user_state, the
    subscription trigger and a reconciliation run, at any times and with
    any writes to the billing tables in between, the table
    [user_account_state] stays as it was: what the sign-up wrote there is
    what every later reader finds. *)
Theorem derived_state_is_never_rewritten (history : list event) (db : Final.database) :
  Final.user_account_state (run_all history db) = Final.user_account_state db.
Proof. apply run_all_derived_state. Qed.

Lemma filter_none {A} (p : A -> bool) (l : list A) :
  (forall x, In x l -> p x = false) -> filter p l = [].
Proof.
  induction l as [|x l IH]; simpl; intro H; [reflexivity|].
  rewrite (H x) by now left. apply IH. intros y Hy. apply H. now right.
Qed.

(** ** Sign-up *)

Lemma existsb_app_last {A} (p : A -> bool) (l : list A) x :
  p x = true -> existsb p (l ++ [x]) = true.
Proof. intro H. rewrite existsb_app. simpl. rewrite H. apply orb_true_iff. right. reflexivity. Qed.

(** After a sign-up the user has a profile, a row of derived state and a
    trial row. *)
Lemma signed_up_rows now NEW full_name s s' :
  Final.on_auth_user_created_enhanced now NEW full_name s = Final.Stored s' ->
  existsb (fun p => N.eqb (Final.up_id p) (au_id NEW)) (Final.user_profiles s') = true
  /\ existsb (fun r => N.eqb (Final.uas_user_id r) (au_id NEW))
             (Final.user_account_state (Final.tables s')) = true
  /\ existsb (fun t => N.eqb (ut_user_id t) (au_id NEW))
             (Final.user_trials (Final.tables s')) = true.
Proof.
  unfold Final.on_auth_user_created_enhanced, Final.create_complete_user_profile,
    Final.upsert_profile, Final.insert_account_state, Final.insert_trial.
  intro H.
  destruct (existsb (fun p => N.eqb (Final.up_id p) (au_id NEW)) (Final.user_profiles s))
    eqn:Ep;
    [|destruct (uuid_in (au_id NEW) (map au_id (Final.auth_users (Final.tables s))))
        eqn:Er; [|discriminate]];
    cbn [Final.tables Final.user_profiles] in H;
    (destruct (existsb (fun r => N.eqb (Final.uas_user_id r) (au_id NEW))
                       (Final.user_account_state (Final.tables s))) eqn:Es;
     [|destruct (existsb (fun r => String.eqb (Final.uas_email r) (au_email NEW))
                         (Final.user_account_state (Final.tables s)));
       [discriminate|];
       destruct (negb (uuid_in (au_id NEW) (map au_id (Final.auth_users (Final.tables s)))));
       [discriminate|]]);
    cbn [Final.tables Final.user_profiles Final.with_user_account_state
         Final.user_trials Final.auth_users Final.user_account_state] in H;
    (destruct (existsb (fun t => N.eqb (ut_user_id t) (au_id NEW))
                       (Final.user_trials (Final.tables s))) eqn:Et;
     [|destruct (negb (uuid_in (au_id NEW) (map au_id (Final.auth_users (Final.tables s)))));
       [discriminate|]]);
    inversion H; subst s'; clear H;
    cbn [Final.tables Final.user_profiles Final.with_user_account_state
         Final.with_user_trials Final.user_trials Final.user_account_state];
    repeat split;
    try assumption;
    try (apply existsb_app_last; cbn; apply N.eqb_refl).
  all: rewrite existsb_update by reflexivity; assumption.
Qed.

(** X18. A sign-up cannot be replayed to renew a trial: when the trigger
    [on_auth_user_created_enhanced] has run for a user, running it again
    for the same user, at any later time and with any name, is accepted
    and leaves every table but [user_profiles] as it was ([ON CONFLICT DO
    NOTHING] on the derived state and on the trial). *)
Theorem repeated_sign_up_keeps_tables (now now' : timestamptz) (NEW : auth_user)
        (full_name full_name' : option text) (s s1 : Final.store) :
  Final.on_auth_user_created_enhanced now NEW full_name s = Final.Stored s1 ->
  exists s2,
    Final.on_auth_user_created_enhanced now' NEW full_name' s1 = Final.Stored s2
    /\ Final.tables s2 = Final.tables s1.
Proof.
  intro H. apply signed_up_rows in H. destruct H as (Hp & Hs & Ht).
  unfold Final.on_auth_user_created_enhanced, Final.create_complete_user_profile,
    Final.upsert_profile, Final.insert_account_state, Final.insert_trial.
  rewrite Hp. cbn [Final.tables Final.user_profiles]. rewrite Hs.
  cbn [Final.tables Final.user_profiles]. rewrite Ht.
  eexists. split; reflexivity.
Qed.

Lemma repeated_sign_up_keeps_tables_witness :
  exists s1,
    Final.on_auth_user_created_enhanced (day 0) (user_row 7%N "late@example.org")
                                        None fresh_store = Final.Stored s1
    /\ exists s2,
      Final.on_auth_user_created_enhanced (day 5) (user_row 7%N "late@example.org")
                                          (Some "Late") s1 = Final.Stored s2
      /\ Final.tables s2 = Final.tables s1.
Proof.
  eexists. split; [reflexivity|].
  apply (repeated_sign_up_keeps_tables (day 0) (day 5) (user_row 7%N "late@example.org")
                                       None (Some "Late") fresh_store).
  reflexivity.
Defined.

(** X19. A sign-up is refused when the derived state still holds the new
    user's email address for another user: the trigger raises a unique
    violation ([UNIQUE(email)] of [user_account_state]), which aborts the
    insertion into [auth.users] it runs in. *)
Theorem sign_up_refused_on_taken_email (now : timestamptz) (NEW : auth_user)
        (full_name : option text) (s : Final.store) (r : Final.account_state) :
  In NEW (Final.auth_users (Final.tables s)) ->
  existsb (fun r => N.eqb (Final.uas_user_id r) (au_id NEW))
          (Final.user_account_state (Final.tables s)) = false ->
  In r (Final.user_account_state (Final.tables s)) ->
  Final.uas_email r = au_email NEW ->
  Final.on_auth_user_created_enhanced now NEW full_name s
  = Final.Refused Final.unique_violation.
Proof.
  intros Hreg Hnew Hr Hemail.
  assert (Hin : uuid_in (au_id NEW) (map au_id (Final.auth_users (Final.tables s))) = true).
  { apply uuid_in_spec. now apply in_map. }
  assert (Htaken : existsb (fun r => String.eqb (Final.uas_email r) (au_email NEW))
                           (Final.user_account_state (Final.tables s)) = true).
  { apply existsb_exists. exists r. split; [exact Hr|]. now apply String.eqb_eq. }
  unfold Final.on_auth_user_created_enhanced, Final.create_complete_user_profile,
    Final.upsert_profile, Final.insert_account_state.
  rewrite Hin.
  destruct (existsb (fun p => N.eqb (Final.up_id p) (au_id NEW)) (Final.user_profiles s));
    cbn [Final.tables Final.user_profiles]; rewrite Hnew, Htaken; reflexivity.
Qed.

Lemma sign_up_refused_on_taken_email_witness :
  Final.on_auth_user_created_enhanced (day 8) (user_row 7%N "late@example.org")
                                      None taken_email_store
  = Final.Refused Final.unique_violation.
Proof.
  apply (sign_up_refused_on_taken_email
           (day 8) (user_row 7%N "late@example.org") None taken_email_store
           (state_row 9%N "late@example.org" Final.L_trial true)).
  - right. left. reflexivity.
  - reflexivity.
  - left. reflexivity.
  - reflexivity.
Defined.


(** The trial row that the sign-up of a user without trial row adds, and
    the tables it leaves alone. *)
Lemma signed_up_trial now NEW full_name s s' :
  Final.on_auth_user_created_enhanced now NEW full_name s = Final.Stored s' ->
  existsb (fun t => N.eqb (ut_user_id t) (au_id NEW))
          (Final.user_trials (Final.tables s)) = false ->
  Final.user_trials (Final.tables s')
  = (Final.user_trials (Final.tables s)
     ++ [{| ut_user_id := au_id NEW;
            trial_start_date := now;
            trial_end_date := now + Final.interval_7_days;
            ut_trial_status := T_active;
            deletion_scheduled_at := None;
            ut_updated_at := now |}])%list
  /\ Final.auth_users (Final.tables s') = Final.auth_users (Final.tables s)
  /\ Final.stripe_customers (Final.tables s') = Final.stripe_customers (Final.tables s)
  /\ uuid_in (au_id NEW) (map au_id (Final.auth_users (Final.tables s))) = true.
Proof.
  unfold Final.on_auth_user_created_enhanced, Final.create_complete_user_profile,
    Final.upsert_profile, Final.insert_account_state, Final.insert_trial.
  intros H Et.
  destruct (uuid_in (au_id NEW) (map au_id (Final.auth_users (Final.tables s)))) eqn:Er;
    repeat (cbn [Final.tables Final.user_profiles Final.with_user_account_state
                 Final.user_trials Final.auth_users Final.user_account_state negb] in H;
            rewrite ?Et, ?Er in H;
            cbn [negb] in H;
            match type of H with
            | context [if ?b then _ else _] => destruct b
            end;
            try discriminate);
    cbn [Final.tables Final.user_profiles Final.with_user_account_state
         Final.user_trials Final.auth_users Final.user_account_state negb] in H;
    rewrite ?Et, ?Er in H; cbn [negb] in H;
    try discriminate;
    inversion H; subst s'; repeat split.
Qed.

(** ** Joins on a user with one row per table *)

Lemma filter_all {A} (p : A -> bool) (l : list A) :
  (forall x, In x l -> p x = true) -> filter p l = l.
Proof.
  induction l as [|x l IH]; simpl; intro H; [reflexivity|].
  rewrite (H x) by now left. f_equal. apply IH. intros y Hy. apply H. now right.
Qed.

Lemma filter_and {A} (p q : A -> bool) (l : list A) :
  filter (fun x => p x && q x) l = filter q (filter p l).
Proof.
  induction l as [|x l IH]; simpl; [reflexivity|].
  destruct (p x); simpl; [destruct (q x)|]; now rewrite IH.
Qed.

Lemma left_join_block_fst {A B} (on : A -> B -> bool) (a : A) (r : list B) x :
  In x match filter (on a) r with
       | [] => [(a, None)]
       | bs => map (fun b => (a, Some b)) bs
       end ->
  fst x = a.
Proof.
  destruct (filter (on a) r) as [|b bs].
  - intros [H|[]]. now subst x.
  - intro H. apply in_map_iff in H. destruct H as (b' & H & _). now subst x.
Qed.

Lemma left_join_cons {A B} (on : A -> B -> bool) (a : A) (l : list A) (r : list B) :
  left_join on (a :: l) r
  = (match filter (on a) r with
     | [] => [(a, None)]
     | bs => map (fun b => (a, Some b)) bs
     end ++ left_join on l r)%list.
Proof. reflexivity. Qed.

(** A [WHERE] on the columns of the left table can be applied before the
    outer join. *)
Lemma filter_left_join {A B} (p : A -> bool) (on : A -> B -> bool)
      (l : list A) (r : list B) :
  filter (fun x => p (fst x)) (left_join on l r) = left_join on (filter p l) r.
Proof.
  induction l as [|a l IH]; [reflexivity|].
  rewrite left_join_cons, filter_app, IH. cbn [filter].
  destruct (p a) eqn:E.
  - rewrite left_join_cons. f_equal. apply filter_all. intros x Hx.
    apply left_join_block_fst in Hx. now rewrite Hx.
  - rewrite filter_none; [reflexivity|]. intros x Hx.
    apply left_join_block_fst in Hx. now rewrite Hx.
Qed.

Lemma left_join_one {A B} (on : A -> B -> bool) (a : A) (r : list B) (b : B) :
  filter (on a) r = [b] -> left_join on [a] r = [(a, Some b)].
Proof. intro H. unfold left_join. simpl. now rewrite H. Qed.

Lemma only_trial_row_user trials u t :
  only_trial_row trials u t -> ut_user_id t = u.
Proof.
  intro H. assert (Hin : In t (filter (fun t => N.eqb (ut_user_id t) u) trials)).
  { rewrite H. now left. }
  apply filter_In in Hin. now apply N.eqb_eq.
Qed.

(** The rows that the joins of the earlier script's access functions give
    for a user with one trial row, one live customer row and one live
    subscription row. *)
Lemma complete_access_rows_one now u db t c s :
  only_trial_row (Complete.user_trials db) u t ->
  only_customer_row (Complete.stripe_customers db) u c ->
  sc_deleted_at c = None ->
  only_subscription_row (Complete.stripe_subscriptions db) c s ->
  ss_deleted_at s = None ->
  filter (fun r : user_trial * option stripe_customer * option stripe_subscription =>
            let '(ut, _, _) := r in N.eqb (ut_user_id ut) u)
         (Complete.access_rows db)
  = [(t, Some c, Some s)]
  /\ Complete.si_status (Complete.get_stripe_info u db) = Some (ss_status s)
  /\ trial_info u db = Some t
  /\ is_true (Complete.trial_running now (Some t))
     = trial_status_eqb (ut_trial_status t) T_active && (now <? trial_end_date t).
Proof.
  intros Ht Hc Hcl Hs Hsl.
  pose proof (only_trial_row_user _ _ _ Ht) as Hu.
  assert (Hsubs : forall on' : stripe_subscription -> bool,
             (forall x, on' x = String.eqb (sc_customer_id c) (ss_customer_id x)
                                && is_null (ss_deleted_at x)) ->
             filter on' (Complete.stripe_subscriptions db) = [s]).
  { intros on' Hon. rewrite (filter_ext _ _ Hon), filter_and.
    rewrite (filter_ext (fun x => String.eqb (sc_customer_id c) (ss_customer_id x))
                        (fun s => String.eqb (ss_customer_id s) (sc_customer_id c)))
      by (intro x; apply String.eqb_sym).
    rewrite Hs. simpl. now rewrite Hsl. }
  repeat split.
  - unfold Complete.access_rows.
    rewrite (filter_ext _ (fun x => (fun y : user_trial * option stripe_customer =>
                                       N.eqb (ut_user_id (fst y)) u) (fst x)))
      by (intros [[ut oc] os]; reflexivity).
    rewrite (filter_left_join (fun y : user_trial * option stripe_customer =>
                                 N.eqb (ut_user_id (fst y)) u)).
    rewrite (filter_left_join (fun ut => N.eqb (ut_user_id ut) u)).
    rewrite Ht.
    rewrite (left_join_one _ t _ c).
    + apply left_join_one. apply Hsubs. intro x. reflexivity.
    + rewrite filter_and.
      rewrite (filter_ext (fun x => N.eqb (ut_user_id t) (sc_user_id x))
                          (fun c => N.eqb (sc_user_id c) u))
        by (intro x; rewrite Hu; apply N.eqb_sym).
      rewrite Hc. simpl. now rewrite Hcl.
  - unfold Complete.get_stripe_info.
    rewrite filter_and, filter_and.
    rewrite (filter_left_join (fun c => N.eqb (sc_user_id c) u)).
    rewrite Hc.
    rewrite (left_join_one _ c _ s).
    + cbn [filter fst snd]. rewrite Hcl. cbn [is_null filter snd]. rewrite Hsl.
      reflexivity.
    + rewrite (filter_ext _ (fun s => String.eqb (ss_customer_id s) (sc_customer_id c)))
        by (intro x; apply String.eqb_sym).
      exact Hs.
  - unfold trial_info. unfold only_trial_row in Ht. now rewrite Ht.
  - unfold Complete.trial_running. simpl.
    destruct (trial_status_eqb (ut_trial_status t) T_active);
      destruct (now <? trial_end_date t); reflexivity.
Qed.

(** X22. The two access decisions of the earlier script.  For a user with
    one trial row and one live customer row with one live subscription
    row, [get_user_access_level] answers [has_access = true] when the
    subscription is active or trialing or the trial is active and not
    ended, whatever the subscription; [sync_user_state] reports
    [has_access = false] for a subscription that is past_due or canceled
    and decides like [get_user_access_level] otherwise.  So the two
    differ for a past_due or canceled subscription during a running
    trial. *)
Theorem complete_access_decisions (now : timestamptz) (u : uuid) (db : Complete.database)
        (t : user_trial) (c : stripe_customer) (s : stripe_subscription) :
  only_trial_row (Complete.user_trials db) u t ->
  only_customer_row (Complete.stripe_customers db) u c ->
  sc_deleted_at c = None ->
  only_subscription_row (Complete.stripe_subscriptions db) c s ->
  ss_deleted_at s = None ->
  let running := trial_status_eqb (ut_trial_status t) T_active
                 && (now <? trial_end_date t) in
  map Complete.ar_has_access (Complete.get_user_access_level now u db)
  = [in_active_trialing (ss_status s) || running]
  /\ Complete.sr_has_access (snd (Complete.sync_user_state now u db))
     = match ss_status s with
       | S_active | S_trialing => true
       | S_past_due | S_canceled => false
       | _ => running
       end.
Proof.
  intros Ht Hc Hcl Hs Hsl running.
  destruct (complete_access_rows_one now u db t c s Ht Hc Hcl Hs Hsl)
    as (Hrows & Hst & Hti & Hrun).
  split.
  - unfold Complete.get_user_access_level. rewrite Hrows.
    cbn [map Complete.ar_has_access option_map sql_in_active_trialing is_true].
    unfold running.
    destruct (in_active_trialing (ss_status s));
      destruct (trial_status_eqb (ut_trial_status t) T_active);
      destruct (now <? trial_end_date t); reflexivity.
  - pose proof (complete_sync_user_state_report now u db) as Hrep.
    cbv zeta in Hrep. rewrite Hst, Hti in Hrep.
    assert (Hacc : Complete.sr_has_access (snd (Complete.sync_user_state now u db))
                   = snd (fst (Complete.classify now (Some (ss_status s)) (Some t)))).
    { now rewrite <- Hrep. }
    rewrite Hacc. unfold Complete.classify. fold running in Hrun.
    destruct (ss_status s); cbn [Complete.status_is option_map stripe_status_eqb is_true];
      rewrite ?Hrun; destruct running; reflexivity.
Qed.

Lemma complete_access_decisions_witness :
  map Complete.ar_has_access
      (Complete.get_user_access_level (day 10) 9%N (classifier_db S_canceled))
  = [true]
  /\ Complete.sr_has_access
       (snd (Complete.sync_user_state (day 10) 9%N (classifier_db S_canceled)))
     = false.
Proof.
  apply (complete_access_decisions
           (day 10) 9%N (classifier_db S_canceled)
           (trial_row 9%N 12 T_active None) (customer_row 9%N "cus_9")
           (subscription_row "cus_9" S_canceled 3)); reflexivity.
Defined.

(** ** The protection guard and the sweeper *)

(** X23. In the earlier script the guard and the sweeper agree: a user
    with at most one trial row whom [verify_user_protection] reports as
    protected (a live active or trialing subscription, or a converted
    trial) is not listed by [get_users_for_deletion], at any time. *)
Theorem complete_protected_user_is_not_listed (now : timestamptz) (u : uuid)
        (db : Complete.database) (r : Complete.protection_report) :
  one_trial_row (Complete.user_trials db) u ->
  In r (Complete.verify_user_protection u db) ->
  Complete.is_protected r = true ->
  ~ In u (map (fun x => fst (fst x)) (Complete.get_users_for_deletion now db)).
Proof.
  intros Hone Hr Hprot Hx.
  apply in_map_iff in Hx. destruct Hx as (x & Hxu & Hx).
  unfold Complete.get_users_for_deletion in Hx. apply in_map_iff in Hx.
  destruct Hx as ([t au'] & Hx & Hin). subst x. simpl in Hxu.
  apply filter_In in Hin. destruct Hin as (Hj & Hcond).
  apply in_join in Hj. destruct Hj as (Ht & _). simpl in Hcond.
  apply andb_true_iff in Hcond. destruct Hcond as (Hcond & _).
  apply andb_true_iff in Hcond. destruct Hcond as (Hsched & Hnp).
  apply trial_status_eqb_eq in Hsched. apply negb_true_iff in Hnp.
  unfold Complete.verify_user_protection in Hr. apply in_map_iff in Hr.
  destruct Hr as ([[[au out] oc] os] & Hr & Hin).
  apply filter_In in Hin. destruct Hin as (Hin & Hid). apply N.eqb_eq in Hid.
  unfold Complete.protection_rows in Hin.
  apply in_left_join in Hin. destruct Hin as (Hin & H3).
  apply in_left_join in Hin. destruct Hin as (Hin & H2).
  apply in_left_join in Hin. destruct Hin as (_ & H1).
  simpl in H1, H2, H3. subst r. simpl in Hprot.
  destruct os as [s|]; simpl in Hprot.
  - destruct (in_active_trialing (ss_status s)) eqn:Hact.
    + destruct oc as [c|]; [|destruct H3; discriminate].
      destruct H3 as (Hs & Hon). destruct H2 as (Hc & Hon2).
      apply andb_true_iff in Hon. destruct Hon as (Hcs & Hsl).
      apply andb_true_iff in Hon2. destruct Hon2 as (Hcu & Hcl).
      apply N.eqb_eq in Hcu. apply String.eqb_eq in Hcs.
      apply is_null_spec in Hsl. apply is_null_spec in Hcl.
      apply in_active_trialing_spec in Hact.
      assert (Hpay : uuid_in (ut_user_id t) (Complete.paying db) = true).
      { apply is_paying. exists c, s. repeat split; auto. congruence. }
      congruence.
    + destruct out as [t0|]; simpl in Hprot; [|discriminate].
      destruct (trial_status_eqb (ut_trial_status t0) T_converted_to_paid) eqn:Hconv;
        [|discriminate].
      apply trial_status_eqb_eq in Hconv. destruct H1 as (Ht0 & Hon).
      apply N.eqb_eq in Hon.
      assert (t0 = t) by (apply Hone; auto; congruence). subst t0. congruence.
  - destruct out as [t0|]; simpl in Hprot; [|discriminate].
    destruct (trial_status_eqb (ut_trial_status t0) T_converted_to_paid) eqn:Hconv;
      [|discriminate].
    apply trial_status_eqb_eq in Hconv. destruct H1 as (Ht0 & Hon).
    apply N.eqb_eq in Hon.
    assert (t0 = t) by (apply Hone; auto; congruence). subst t0. congruence.
Qed.

Lemma complete_protected_user_is_not_listed_witness :
  ~ In 8%N (map (fun x => fst (fst x))
                (Complete.get_users_for_deletion (day 10) complete_sweep_db)).
Proof.
  apply (complete_protected_user_is_not_listed
           (day 10) 8%N complete_sweep_db
           {| Complete.pr_user_id := 8%N;
              Complete.pr_email := "paid@example.org";
              Complete.is_protected := true;
              Complete.protection_reason := "Active paid subscription";
              Complete.pr_trial_status := Some "scheduled_for_deletion";
              Complete.pr_subscription_status := "active" |}).
  - intros t1 t2 [H1|[H1|[]]] [H2|[H2|[]]] E1 E2; subst t1 t2;
      (reflexivity || discriminate).
  - left. reflexivity.
  - reflexivity.
Defined.

Lemma get_users_for_deletion_listed now db t au :
  In t (Final.user_trials db) -> In au (Final.auth_users db) ->
  ut_user_id t = au_id au ->
  ut_trial_status t = T_scheduled_for_deletion ->
  ut_user_id t <> super_admin_id ->
  ~ holds_live_subscription (Final.stripe_customers db)
                            (Final.stripe_subscriptions db) (ut_user_id t) ->
  trial_end_date t < now - interval_1_day ->
  In {| Final.dc_user_id := ut_user_id t;
        Final.dc_email := au_email au;
        Final.dc_trial_end_date := trial_end_date t |}
     (Final.get_users_for_deletion now db).
Proof.
  intros Ht Hau Hid Hst Hadm Hpay Hend.
  unfold Final.get_users_for_deletion. apply in_map_iff.
  exists (t, au). split; [reflexivity|].
  apply filter_In. split.
  - apply in_join. repeat split; auto. now apply N.eqb_eq.
  - simpl. repeat (apply andb_true_iff; split).
    + now apply trial_status_eqb_eq.
    + apply negb_true_iff. now apply N.eqb_neq.
    + apply negb_true_iff. now apply not_paying.
    + now apply Z.ltb_lt.
Qed.

(** X24. In the final script the guard and the sweeper can disagree.  The
    guard's join does not look at the customer row's [deleted_at], the
    sweeper's subquery does: a user other than the super admin whose one
    customer row is soft-deleted while a subscription row of it is still
    active or trialing, and whose trial is scheduled for deletion and
    ended more than a day ago, is reported as protected by
    [verify_user_protection] and listed by [get_users_for_deletion]. *)
Theorem final_protected_yet_listed (now : timestamptz) (u : uuid) (db : Final.database)
        (au : auth_user) (t : user_trial) (c : stripe_customer)
        (s : stripe_subscription) :
  In au (Final.auth_users db) -> au_id au = u ->
  u <> super_admin_id ->
  In t (Final.user_trials db) -> ut_user_id t = u ->
  ut_trial_status t = T_scheduled_for_deletion ->
  trial_end_date t < now - interval_1_day ->
  only_customer_row (Final.stripe_customers db) u c ->
  sc_deleted_at c <> None ->
  In s (Final.stripe_subscriptions db) ->
  ss_customer_id s = sc_customer_id c ->
  ss_status s = S_active \/ ss_status s = S_trialing ->
  ss_deleted_at s = None ->
  Final.verify_user_protection u db <> []
  /\ (forall r, In r (Final.verify_user_protection u db) -> Final.is_protected r = true)
  /\ In {| Final.dc_user_id := u;
           Final.dc_email := au_email au;
           Final.dc_trial_end_date := trial_end_date t |}
        (Final.get_users_for_deletion now db).
Proof.
  intros Hau Hid Hadm Ht Htu Hsched Hend Hc Hdel Hs Hsc Hact Hsl.
  assert (Hcust : forall c', In c' (Final.stripe_customers db) -> sc_user_id c' = u ->
                             c' = c).
  { intros c' Hin Hu.
    assert (H : In c' (filter (fun c => N.eqb (sc_user_id c) u) (Final.stripe_customers db))).
    { apply filter_In. split; [exact Hin|]. now apply N.eqb_eq. }
    rewrite Hc in H. destruct H as [H|[]]. now symmetry. }
  assert (Hcin : In c (Final.stripe_customers db) /\ sc_user_id c = u).
  { assert (H : In c (filter (fun c => N.eqb (sc_user_id c) u) (Final.stripe_customers db))).
    { rewrite Hc. now left. }
    apply filter_In in H. destruct H as (H & E). split; [exact H|now apply N.eqb_eq]. }
  destruct Hcin as (Hcin & Hcu).
  split; [|split].
  - destruct (left_join_total (fun u0 ut => N.eqb (au_id u0) (ut_user_id ut))
                              (Final.auth_users db) (Final.user_trials db) au Hau)
      as (o1 & H1).
    destruct (left_join_total
                (fun (r : auth_user * option user_trial) sc =>
                   N.eqb (au_id (fst r)) (sc_user_id sc))
                _ (Final.stripe_customers db) _ H1) as (o2 & H2).
    destruct (left_join_total
                (fun (r : auth_user * option user_trial * option stripe_customer) ss =>
                   match snd r with
                   | Some sc => String.eqb (sc_customer_id sc) (ss_customer_id ss)
                                && in_active_trialing (ss_status ss)
                                && is_null (ss_deleted_at ss)
                   | None => false
                   end)
                _ (Final.stripe_subscriptions db) _ H2) as (o3 & H3).
    intro Hnil. unfold Final.verify_user_protection in Hnil.
    apply map_eq_nil in Hnil.
    assert (Hin : In (au, o1, o2, o3)
                     (filter (fun r => let '(u0, _, _, _) := r in N.eqb (au_id u0) u)
                             (Final.protection_rows db))).
    { apply filter_In. split; [exact H3|]. simpl. now apply N.eqb_eq. }
    rewrite Hnil in Hin. destruct Hin.
  - intros r Hr. unfold Final.verify_user_protection in Hr.
    apply in_map_iff in Hr. destruct Hr as ([[[au' o1] o2] o3] & Hr & Hin).
    apply filter_In in Hin. destruct Hin as (Hin & Hid'). apply N.eqb_eq in Hid'.
    unfold Final.protection_rows in Hin.
    apply in_left_join in Hin. destruct Hin as (Hin & H3).
    apply in_left_join in Hin. destruct Hin as (_ & H2).
    simpl in H2, H3. subst r. simpl.
    destruct (N.eqb (au_id au') super_admin_id); [reflexivity|].
    assert (E2 : o2 = Some c).
    { destruct o2 as [c'|].
      - destruct H2 as (Hc' & Hon). apply N.eqb_eq in Hon.
        f_equal. apply Hcust; [exact Hc'|congruence].
      - specialize (H2 c Hcin). apply N.eqb_neq in H2. congruence. }
    subst o2. destruct o3 as [s'|].
    + destruct H3 as (_ & Hon). apply andb_true_iff in Hon. destruct Hon as (Hon & _).
      apply andb_true_iff in Hon. destruct Hon as (_ & Hon). simpl. now rewrite Hon.
    + exfalso. specialize (H3 s Hs). rewrite <- Hsc, String.eqb_refl in H3.
      apply in_active_trialing_spec in Hact. rewrite Hact, Hsl in H3. discriminate.
  - rewrite <- Htu.
    apply get_users_for_deletion_listed; auto; try congruence.
    intros (c' & s' & Hc' & _ & Hu' & _ & _ & _ & Hlive).
    rewrite Htu in Hu'. rewrite (Hcust c' Hc' Hu') in Hlive. contradiction.
Qed.

Lemma final_protected_yet_listed_witness :
  Final.verify_user_protection 8%N soft_deleted_customer_db <> []
  /\ (forall r, In r (Final.verify_user_protection 8%N soft_deleted_customer_db) ->
                Final.is_protected r = true)
  /\ In {| Final.dc_user_id := 8%N;
           Final.dc_email := "paid@example.org";
           Final.dc_trial_end_date := day 7 |}
        (Final.get_users_for_deletion (day 10) soft_deleted_customer_db).
Proof.
  apply (final_protected_yet_listed
           (day 10) 8%N soft_deleted_customer_db
           (user_row 8%N "paid@example.org")
           (trial_row 8%N 7 T_scheduled_for_deletion (Some (day 8)))
           {| sc_user_id := 8%N; sc_customer_id := "cus_8"; sc_deleted_at := Some (day 9) |}
           paid_subscription).
  - left. reflexivity.
  - reflexivity.
  - discriminate.
  - left. reflexivity.
  - reflexivity.
  - reflexivity.
  - reflexivity.
  - reflexivity.
  - discriminate.
  - left. reflexivity.
  - reflexivity.
  - left. reflexivity.
  - reflexivity.
Defined.

(** ** From the end of a trial to the sweeper's list *)

Lemma trial_pass_expires_row now pay t :
  N.eqb (ut_user_id t) super_admin_id = false ->
  uuid_in (ut_user_id t) pay = false ->
  ut_trial_status t = T_active ->
  (trial_end_date t <? now) = true ->
  Final.trial_pass now pay t = set_expired now t.
Proof. trial_cases t pay now; intros; try congruence; reflexivity. Qed.

Lemma trial_pass_schedules_row now pay t d :
  N.eqb (ut_user_id t) super_admin_id = false ->
  uuid_in (ut_user_id t) pay = false ->
  ut_trial_status t = T_expired ->
  deletion_scheduled_at t = Some d ->
  (d <? now) = true ->
  Final.trial_pass now pay t = set_scheduled now t.
Proof. trial_cases t pay now; intros; try congruence; reflexivity. Qed.

(** X1. From the end of an unpaid trial to the sweeper's list.  For a
    registered user, neither the super admin nor the holder of a live
    subscription, whose active trial ended before [now1]: the trial pass
    at [now1] expires the trial with a deletion date one day after
    [now1]; a second trial pass at any [now2] after that date marks it
    scheduled for deletion, and [get_users_for_deletion] at [now2] lists
    the user at once.  The day of grace thus runs from the first trial
    pass after the end of the trial, not from the end itself. *)
Theorem unpaid_trial_reaches_the_sweeper (now1 now2 : timestamptz) (db : Final.database)
        (t : user_trial) (au : auth_user) :
  In t (Final.user_trials db) ->
  In au (Final.auth_users db) ->
  ut_user_id t = au_id au ->
  ut_user_id t <> super_admin_id ->
  ~ holds_live_subscription (Final.stripe_customers db)
                            (Final.stripe_subscriptions db) (ut_user_id t) ->
  ut_trial_status t = T_active ->
  trial_end_date t < now1 ->
  now1 + interval_1_day < now2 ->
  let db1 := Final.check_expired_trials now1 db in
  let db2 := Final.check_expired_trials now2 db1 in
  In (set_expired now1 t) (Final.user_trials db1)
  /\ In (set_scheduled now2 (set_expired now1 t)) (Final.user_trials db2)
  /\ In {| Final.dc_user_id := ut_user_id t;
           Final.dc_email := au_email au;
           Final.dc_trial_end_date := trial_end_date t |}
        (Final.get_users_for_deletion now2 db2).
Proof.
  intros Ht Hau Hid Hadm Hpay Hact Hend Hlater db1 db2.
  assert (Hadm' : N.eqb (ut_user_id t) super_admin_id = false) by now apply N.eqb_neq.
  assert (Hpay' : uuid_in (ut_user_id t) (Final.paying db) = false) by now apply not_paying.
  assert (H1 : In (set_expired now1 t) (Final.user_trials db1)).
  { unfold db1. rewrite check_expired_trials_rows. apply in_map_iff. exists t.
    split; [|exact Ht]. apply trial_pass_expires_row; auto. now apply Z.ltb_lt. }
  assert (H2 : In (set_scheduled now2 (set_expired now1 t)) (Final.user_trials db2)).
  { unfold db2. rewrite check_expired_trials_rows. apply in_map_iff.
    exists (set_expired now1 t). split; [|exact H1].
    apply (trial_pass_schedules_row now2 _ _ (now1 + interval_1_day)); auto.
    now apply Z.ltb_lt. }
  split; [exact H1|]. split; [exact H2|].
  apply (get_users_for_deletion_listed now2 db2
                                       (set_scheduled now2 (set_expired now1 t)) au);
    auto.
  cbn [trial_end_date set_scheduled set_expired]. lia.
Qed.

Lemma unpaid_trial_reaches_the_sweeper_witness :
  let db1 := Final.check_expired_trials (day 7 + second) trial_user_db in
  let db2 := Final.check_expired_trials (day 8 + 2 * second) db1 in
  In (set_expired (day 7 + second) (trial_row 7%N 7 T_active None)) (Final.user_trials db1)
  /\ In (set_scheduled (day 8 + 2 * second)
                       (set_expired (day 7 + second) (trial_row 7%N 7 T_active None)))
        (Final.user_trials db2)
  /\ In {| Final.dc_user_id := 7%N;
           Final.dc_email := "late@example.org";
           Final.dc_trial_end_date := day 7 |}
        (Final.get_users_for_deletion (day 8 + 2 * second) db2).
Proof.
  apply (unpaid_trial_reaches_the_sweeper
           (day 7 + second) (day 8 + 2 * second) trial_user_db
           (trial_row 7%N 7 T_active None) (user_row 7%N "late@example.org")).
  - left. reflexivity.
  - left. reflexivity.
  - reflexivity.
  - discriminate.
  - apply no_subscription_without_customer.
  - reflexivity.
  - reflexivity.
  - reflexivity.
Defined.

(** ** Writes to the subscription table *)

(** X8. In the final script no write of a subscription row goes through.
    The row trigger [on_subscription_change] raises for every row
    written and on every database, whether or not the row's customer is
    known: [datatype_mismatch] from the [UPDATE] of [sync_user_state], or
    [cardinality_violation] before that when several customer rows carry
    the customer id.  The statement that wrote the row is rolled back
    with it. *)
Theorem subscription_write_is_refused (now : timestamptz) (NEW : stripe_subscription)
        (db : Final.database) :
  Final.on_subscription_change now NEW db
  = match filter (fun c => String.eqb (sc_customer_id c) (ss_customer_id NEW))
                 (Final.stripe_customers db) with
    | [] | [_] => Raised datatype_mismatch
    | _ => Raised cardinality_violation
    end
  /\ committed db (Final.on_subscription_change now NEW db) = db.
Proof.
  split; [|apply committed_on_subscription_change].
  unfold Final.on_subscription_change.
  destruct (filter (fun c => String.eqb (sc_customer_id c) (ss_customer_id NEW))
                   (Final.stripe_customers db)) as [|c [|c' rest]].
  - reflexivity.
  - rewrite final_sync_user_state_refused. reflexivity.
  - reflexivity.
Qed.

(** ** What the page shows *)

Lemma days_remaining_bounds now trial_end :
  0 <= days_remaining now trial_end
  /\ (trial_end <= now -> days_remaining now trial_end = 0)
  /\ (now < trial_end ->
      interval_1_day * days_remaining now trial_end <= trial_end - now
      /\ trial_end - now < interval_1_day * (days_remaining now trial_end + 1)).
Proof.
  unfold days_remaining. destruct (now <? trial_end) eqn:E.
  - apply Z.ltb_lt in E.
    assert (Hd : 0 < interval_1_day) by (unfold interval_1_day; lia).
    rewrite Z.quot_div_nonneg by lia.
    pose proof (Z.mul_div_le (trial_end - now) interval_1_day Hd) as H1.
    pose proof (Z.mul_succ_div_gt (trial_end - now) interval_1_day Hd) as H2.
    assert (H0 : 0 <= (trial_end - now) / interval_1_day) by (apply Z.div_pos; lia).
    repeat split; try lia.
  - apply Z.ltb_ge in E. repeat split; lia.
Qed.

(** X25. What the component [TrialStatus] shows to a user without active
    subscription, for a trial row read through the view [user_trial_info]
    at [now]: by the row's status, and for an active row by the time
    left.  The view counts whole days, so an active trial with less than a
    day left is shown as TRIAL EXPIRED although it has not ended; TRIAL
    ENDING SOON is shown between one and two days before the end. *)
Theorem trial_banner_by_time_left (now : timestamptz) (ut : user_trial) :
  Hooks.TrialStatus (Some (Hooks.user_trial_info now ut)) false
  = match ut_trial_status ut with
    | T_scheduled_for_deletion => Some Hooks.ACCOUNT_DELETION_SCHEDULED
    | T_expired => Some Hooks.TRIAL_EXPIRED
    | T_converted_to_paid => None
    | T_active =>
        if trial_end_date ut <? now + interval_1_day then Some Hooks.TRIAL_EXPIRED
        else if trial_end_date ut <? now + 2 * interval_1_day
             then Some Hooks.TRIAL_ENDING_SOON
             else Some Hooks.FREE_TRIAL_ACTIVE
    end.
Proof.
  unfold Hooks.TrialStatus, Hooks.isScheduledForDeletion, Hooks.isTrialExpired,
    Hooks.isTrialActive, Hooks.user_trial_info.
  cbn [Hooks.ti_trial_status Hooks.ti_days_remaining].
  destruct (ut_trial_status ut); cbn [trial_status_eqb orb andb]; try reflexivity.
  - rewrite andb_true_r.
    destruct (days_remaining_bounds now (trial_end_date ut)) as (H0 & Hz & Hb).
    assert (Hd : interval_1_day = 86400000000) by reflexivity.
    destruct (trial_end_date ut <? now + interval_1_day) eqn:E1.
    + apply Z.ltb_lt in E1.
      assert (Hdays : days_remaining now (trial_end_date ut) = 0).
      { destruct (Z_le_gt_dec (trial_end_date ut) now) as [Hle|Hgt]; [auto|].
        destruct (Hb ltac:(lia)). lia. }
      rewrite Hdays. reflexivity.
    + apply Z.ltb_ge in E1. destruct (Hb ltac:(lia)) as (Hlo & Hhi).
      assert (Hpos : (days_remaining now (trial_end_date ut) =? 0) = false).
      { apply Z.eqb_neq. lia. }
      assert (Hpos' : (0 <? days_remaining now (trial_end_date ut)) = true).
      { apply Z.ltb_lt. lia. }
      rewrite Hpos, Hpos'.
      destruct (trial_end_date ut <? now + 2 * interval_1_day) eqn:E2.
      * apply Z.ltb_lt in E2.
        assert (Hu : (days_remaining now (trial_end_date ut) <=? 1) = true).
        { apply Z.leb_le. lia. }
        now rewrite Hu.
      * apply Z.ltb_ge in E2.
        assert (Hu : (days_remaining now (trial_end_date ut) <=? 1) = false).
        { apply Z.leb_gt. lia. }
        now rewrite Hu.
  - cbn. destruct (days_remaining now (trial_end_date ut) =? 0); reflexivity.
Qed.


(** X17. What [get_user_access_level] answers for a user's level, access and
    days left is what the table of derived state held before any history
    of calls of protect_paying_customers, sync_subscription_status,
    check_expired_trials, mark_trial_converted, sync_user_state, the
    subscription trigger and a reconciliation run, with any writes to
    the billing tables in between: an ended trial does not withdraw
    [has_access], a payment does not raise the level. *)
Theorem access_answer_is_never_refreshed (history : list event) (now : timestamptz)
        (u : uuid) (db : Final.database) (r : Final.access_report) :
  In r (Final.get_user_access_level now u (run_all history db)) ->
  (exists a, In a (Final.user_account_state db)
             /\ Final.uas_user_id a = u
             /\ Final.ar_access_level r = Final.access_level_text (Final.uas_access_level a)
             /\ Final.ar_has_access r = Final.uas_has_access a
             /\ Final.ar_trial_days_remaining r = Final.uas_trial_days_remaining a)
  \/ ((forall a, In a (Final.user_account_state db) -> Final.uas_user_id a <> u)
      /\ Final.ar_access_level r = "none"
      /\ Final.ar_has_access r = false
      /\ Final.ar_trial_days_remaining r = 0).
Proof.
  intro Hr. unfold Final.get_user_access_level in Hr.
  apply in_map_iff in Hr. destruct Hr as ([[[[au o1] o2] o3] o4] & Hr & Hin).
  apply filter_In in Hin. destruct Hin as (Hin & Hid). apply N.eqb_eq in Hid.
  unfold Final.access_rows in Hin. rewrite run_all_derived_state in Hin.
  apply in_left_join in Hin. destruct Hin as (Hin & _).
  apply in_left_join in Hin. destruct Hin as (Hin & _).
  apply in_left_join in Hin. destruct Hin as (Hin & _).
  apply in_left_join in Hin. destruct Hin as (_ & H1).
  subst r. cbn [Final.ar_access_level Final.ar_has_access Final.ar_trial_days_remaining].
  destruct o1 as [a|].
  - left. destruct H1 as (Ha & Hon). apply N.eqb_eq in Hon.
    exists a. repeat split; [exact Ha|congruence].
  - right. repeat split. intros a Ha Hu. specialize (H1 a Ha).
    apply N.eqb_neq in H1. congruence.
Qed.

Lemma access_answer_is_never_refreshed_witness :
  (exists a, In a (Final.user_account_state trial_user_db)
             /\ Final.uas_user_id a = 7%N
             /\ "trial" = Final.access_level_text (Final.uas_access_level a)
             /\ true = Final.uas_has_access a
             /\ 7 = Final.uas_trial_days_remaining a)
  \/ ((forall a, In a (Final.user_account_state trial_user_db) ->
                 Final.uas_user_id a <> 7%N)
      /\ "trial" = "none"
      /\ true = false
      /\ 7 = 0).
Proof.
  apply (access_answer_is_never_refreshed
           expiry (day 10) 7%N trial_user_db
           {| Final.ar_access_level := "trial";
              Final.ar_has_access := true;
              Final.ar_access_type := "none";
              Final.ar_trial_days_remaining := 7 |}).
  left. reflexivity.
Defined.



